(** * SVMLightDataset: a shallow embedding of
      kedro_datasets/svmlight/svmlight_dataset.py

    The adapter composes three outside collaborators: kedro's versioned
    path resolver, an fsspec filesystem and sklearn's svmlight codec.
    None of them is part of the file; they are taken as a record of
    operations over an abstract outside state, and every call made to
    them is recorded in a log so that the order and the arguments of the
    calls can be stated. *)

From stdpp Require Import gmap strings list fin_maps.
From Stdlib Require Import ZArith Ascii.

(** ** Python values *)

(** Values of type [Any] found in option mappings.  A mapping nested in
    another one is held by value: the adapter only ever mutates the
    top-level mappings it owns. *)
#[warnings="-register-all"]
Inductive pyval : Type :=
  | VNone
  | VBool (b : bool)
  | VInt (z : Z)
  | VStr (s : string)
  | VList (l : list pyval)
  | VDict (d : gmap string pyval).

(** Exceptions.  [VersionNotFoundError] is a subclass of [DatasetError];
    every other class is an [OtherError] with its class name. *)
Inductive exn : Type :=
  | DatasetError (msg : string)
  | VersionNotFoundError (msg : string)
  | TypeError (msg : string)
  | OtherError (cls msg : string).

Inductive result (A : Type) : Type :=
  | Ok (a : A)
  | Raise (e : exn).
Arguments Ok {A} a.
Arguments Raise {A} e.

#[global] Instance result_ret : MRet result := λ A a, Ok a.

#[global] Instance result_bind : MBind result := λ A B f r,
  match r with
  | Ok a => f a
  | Raise e => Raise e
  end.

(** [isinstance(e, DatasetError)], what [except DatasetError] tests. *)
Definition is_DatasetError (e : exn) : bool :=
  match e with
  | DatasetError _ | VersionNotFoundError _ => true
  | TypeError _ | OtherError _ _ => false
  end.

(** Truth value of an object, as [or] and [if] test it. *)
Definition truthy (v : pyval) : bool :=
  match v with
  | VNone => false
  | VBool b => b
  | VInt z => negb (Z.eqb z 0)
  | VStr s => negb (String.eqb s EmptyString)
  | VList l => negb (bool_decide (l = []))
  | VDict d => negb (bool_decide (d = ∅))
  end.

(** [a or b] *)
Definition py_or (a b : pyval) : pyval := if truthy a then a else b.

(** Unpacking [v] inside a dict display: [v] has to be a mapping. *)
Definition unpack (v : pyval) : result (gmap string pyval) :=
  match v with
  | VDict d => Ok d
  | _ => Raise (TypeError "object is not a mapping")
  end.

(** The dict display unpacking [a] then [b]: the entries of [a], then
    those of [b] over them. *)
Definition dict_display (a b : pyval) : result (gmap string pyval) :=
  da ← unpack a; db ← unpack b; mret (db ∪ da).

(** [d.get(k, default)] *)
Definition dict_get (d : gmap string pyval) (k : string) (dflt : pyval) : pyval :=
  default dflt (d !! k).

(** kedro's [Version(load, save)] named tuple. *)
Record Version : Type := mkVersion {
  version_load : option string;
  version_save : option string
}.

(** Identity of a mapping object handed in by the caller. *)
Definition loc : Type := positive.

(** ** Outside collaborators *)

(** The collaborators the adapter calls.  [X] is the state of everything
    outside the adapter (stored files, filesystem caches, the resolver's
    version cache); an operation that can touch it takes it and returns
    it.  [_get_load_path], [_get_save_path] and [_release] are inherited
    from [AbstractVersionedDataset] and read the logical path, the
    version selector and the filesystem's [exists]/[glob]. *)
Record Externals : Type := mkExternals {
  X : Type;
  filesystem : Type;
  stream : Type;
  matrix : Type;
  labels : Type;
  get_protocol_and_path : string → option Version → result (string * string);
  PurePosixPath : string → string;
  get_filepath_str : string → string → string;
  fsspec_filesystem : string → gmap string pyval → X → result filesystem * X;
  fs_open : filesystem → string → gmap string pyval → X → result stream * X;
  file_exit : stream → X → result unit * X;
  fs_exists : filesystem → string → X → result bool * X;
  fs_invalidate_cache : filesystem → string → X → result unit * X;
  load_svmlight_file : stream → gmap string pyval → X → result (matrix * labels) * X;
  dump_svmlight_file :
    matrix → labels → stream → gmap string pyval → X → result unit * X;
  _get_load_path : string → option Version → filesystem → X → result string * X;
  _get_save_path : string → option Version → filesystem → X → result string * X;
  super_release : string → option Version → filesystem → X → result unit * X
}.

Section Adapter.

Context (E : Externals).

(** Calls made to the collaborators, with their arguments and outcome. *)
Inductive event : Type :=
  | EvFilesystem (protocol : string) (kwargs : gmap string pyval)
      (r : result (filesystem E))
  | EvLoadPath (r : result string)
  | EvSavePath (r : result string)
  | EvOpen (fs : filesystem E) (path : string) (kwargs : gmap string pyval)
      (r : result (stream E))
  | EvExit (s : stream E) (r : result unit)
  | EvDecode (s : stream E) (kwargs : gmap string pyval)
      (r : result (matrix E * labels E))
  | EvEncode (m : matrix E) (v : labels E) (s : stream E)
      (kwargs : gmap string pyval) (r : result unit)
  | EvExists (fs : filesystem E) (path : string) (r : result bool)
  | EvInvalidate (fs : filesystem E) (path : string) (r : result unit)
  | EvRelease (r : result unit).

(** The mapping objects alive in the interpreter, the outside state and
    the calls made so far, oldest first. *)
Record world : Type := mkWorld {
  store : gmap loc (gmap string pyval);
  ext : X E;
  log : list event
}.

(** ** Computations: state and exceptions *)

Definition M (A : Type) : Type := world → result A * world.

#[global] Instance M_ret : MRet M := λ A a w, (Ok a, w).

#[global] Instance M_bind : MBind M := λ A B f m w,
  match m w with
  | (Ok a, w') => f a w'
  | (Raise e, w') => (Raise e, w')
  end.

Definition lift {A : Type} (r : result A) : M A := λ w, (r, w).

(** [try: body except DatasetError: handler] *)
Definition try_except_DatasetError {A : Type} (body handler : M A) : M A := λ w,
  match body w with
  | (Ok a, w') => (Ok a, w')
  | (Raise e, w') => if is_DatasetError e then handler w' else (Raise e, w')
  end.

(** A call to a collaborator: run it on the outside state and record it. *)
Definition call {A : Type} (op : X E → result A * X E) (ev : result A → event)
  : M A := λ w,
  let '(r, x) := op (ext w) in
  (r, {| store := store w; ext := x; log := log w ++ [ev r] |}).

(** [with ctx as s: body s].  [__exit__] runs however the body ends; it
    does not swallow the body's exception, and an exception of its own
    replaces it. *)
Definition with_ {A : Type} (ctx : M (stream E)) (body : stream E → M A) : M A :=
  λ w,
  match ctx w with
  | (Raise e, w1) => (Raise e, w1)
  | (Ok s, w1) =>
      match body s w1 with
      | (Ok a, w2) =>
          match call (file_exit E s) (EvExit s) w2 with
          | (Ok _, w3) => (Ok a, w3)
          | (Raise e, w3) => (Raise e, w3)
          end
      | (Raise e, w2) =>
          match call (file_exit E s) (EvExit s) w2 with
          | (Ok _, w3) => (Raise e, w3)
          | (Raise e', w3) => (Raise e', w3)
          end
      end
  end.

(** ** Mapping objects in the store *)

Definition deref (l : loc) : M (gmap string pyval) := λ w,
  match store w !! l with
  | Some d => (Ok d, w)
  | None => (Raise (OtherError "SystemError" "dangling reference"), w)
  end.

Definition alloc (d : gmap string pyval) : M loc := λ w,
  let l := fresh (dom (store w)) in
  (Ok l, {| store := <[l := d]> (store w); ext := ext w; log := log w |}).

Definition assign (l : loc) (d : gmap string pyval) : M unit := λ w,
  (Ok (), {| store := <[l := d]> (store w); ext := ext w; log := log w |}).

(** [deepcopy(o)] for [o] a mapping or [None]: a new object with equal
    contents. *)
Definition deepcopy (o : option loc) : M (option loc) :=
  match o with
  | None => mret None
  | Some l => d ← deref l; l' ← alloc d; mret (Some l')
  end.

(** [o or {}] for [o] a mapping or [None]: an empty mapping is false. *)
Definition or_new_dict (o : option loc) : M loc :=
  match o with
  | None => alloc ∅
  | Some l => d ← deref l; if bool_decide (d = ∅) then alloc ∅ else mret l
  end.

(** [o or {}] where the result is only read. *)
Definition or_empty (o : option loc) : M (gmap string pyval) :=
  match o with
  | None => mret ∅
  | Some l => deref l
  end.

(** [l.pop(k, default)] *)
Definition dict_pop (l : loc) (k : string) (dflt : pyval) : M pyval :=
  d ← deref l;
  match d !! k with
  | Some v => assign l (delete k d);; mret v
  | None => mret dflt
  end.

(** [l.setdefault(k, v)] *)
Definition dict_setdefault (l : loc) (k : string) (v : pyval) : M pyval :=
  d ← deref l;
  match d !! k with
  | Some v' => mret v'
  | None => assign l (<[k := v]> d);; mret v
  end.

(** A call unpacking [a] then [b] as keyword arguments: a keyword given
    twice is a [TypeError]. *)
Definition kwargs2 (a b : gmap string pyval) : result (gmap string pyval) :=
  if bool_decide (a ##ₘ b) then Ok (a ∪ b)
  else Raise (TypeError "got multiple values for keyword argument").

(** ** The class *)

Record SVMLightDataset : Type := mkSVMLightDataset {
  _protocol : string;
  _fs : filesystem E;
  metadata : option loc;
  _filepath : string;
  _version : option Version;
  _load_args : gmap string pyval;
  _save_args : gmap string pyval;
  _fs_open_args_load : gmap string pyval;
  _fs_open_args_save : gmap string pyval
}.

Definition DEFAULT_LOAD_ARGS : gmap string pyval := ∅.

Definition DEFAULT_SAVE_ARGS : gmap string pyval := ∅.

Definition DEFAULT_FS_ARGS : gmap string pyval :=
  <["open_args_save" := VDict {[ "mode" := VStr "wb" ]}]>
    (<["open_args_load" := VDict {[ "mode" := VStr "rb" ]}]> ∅).

Definition __init__ (filepath : string) (load_args save_args : option loc)
    (version : option Version) (credentials fs_args : option loc)
    (metadata : option loc) : M SVMLightDataset :=
  _fs_args ← deepcopy fs_args ≫= or_new_dict;
  _fs_open_args_load ← dict_pop _fs_args "open_args_load" (VDict ∅);
  _fs_open_args_save ← dict_pop _fs_args "open_args_save" (VDict ∅);
  _credentials ← deepcopy credentials ≫= or_new_dict;
  pp ← lift (get_protocol_and_path E filepath version);
  let protocol := pp.1 in
  let path := pp.2 in
  (if bool_decide (protocol = "file")
   then dict_setdefault _fs_args "auto_mkdir" (VBool true);; mret ()
   else mret ());;
  creds ← deref _credentials;
  fsa ← deref _fs_args;
  kw ← lift (kwargs2 creds fsa);
  fs ← call (fsspec_filesystem E protocol kw) (EvFilesystem protocol kw);
  la ← or_empty load_args;
  largs ← lift (dict_display (VDict DEFAULT_LOAD_ARGS) (VDict la));
  sa ← or_empty save_args;
  sargs ← lift (dict_display (VDict DEFAULT_SAVE_ARGS) (VDict sa));
  oload ← lift (dict_display (dict_get DEFAULT_FS_ARGS "open_args_load" (VDict ∅))
                             (py_or _fs_open_args_load (VDict ∅)));
  osave ← lift (dict_display (dict_get DEFAULT_FS_ARGS "open_args_save" (VDict ∅))
                             (py_or _fs_open_args_save (VDict ∅)));
  mret {| _protocol := protocol;
          _fs := fs;
          metadata := metadata;
          _filepath := PurePosixPath E path;
          _version := version;
          _load_args := largs;
          _save_args := sargs;
          _fs_open_args_load := oload;
          _fs_open_args_save := osave |}.

Definition _invalidate_cache (self : SVMLightDataset) : M unit :=
  let filepath := get_filepath_str E (_filepath self) (_protocol self) in
  call (fs_invalidate_cache E (_fs self) filepath) (EvInvalidate (_fs self) filepath).

Definition load (self : SVMLightDataset) : M (matrix E * labels E) :=
  p ← call (_get_load_path E (_filepath self) (_version self) (_fs self)) EvLoadPath;
  let load_path := get_filepath_str E p (_protocol self) in
  with_ (call (fs_open E (_fs self) load_path (_fs_open_args_load self))
              (EvOpen (_fs self) load_path (_fs_open_args_load self)))
    (λ fs_file,
       call (load_svmlight_file E fs_file (_load_args self))
            (EvDecode fs_file (_load_args self))).

Definition save (self : SVMLightDataset) (data : matrix E * labels E) : M unit :=
  p ← call (_get_save_path E (_filepath self) (_version self) (_fs self)) EvSavePath;
  let save_path := get_filepath_str E p (_protocol self) in
  with_ (call (fs_open E (_fs self) save_path (_fs_open_args_save self))
              (EvOpen (_fs self) save_path (_fs_open_args_save self)))
    (λ fs_file,
       call (dump_svmlight_file E data.1 data.2 fs_file (_save_args self))
            (EvEncode data.1 data.2 fs_file (_save_args self)));;
  _invalidate_cache self.

Definition _exists (self : SVMLightDataset) : M bool :=
  r ← try_except_DatasetError
         (p ← call (_get_load_path E (_filepath self) (_version self) (_fs self))
                   EvLoadPath;
          mret (Some (get_filepath_str E p (_protocol self))))
         (mret None);
  match r with
  | None => mret false
  | Some load_path =>
      call (fs_exists E (_fs self) load_path) (EvExists (_fs self) load_path)
  end.

Definition _release (self : SVMLightDataset) : M unit :=
  call (super_release E (_filepath self) (_version self) (_fs self)) EvRelease;;
  _invalidate_cache self.

(** The values [_describe] reports: a path, a string, an option mapping
    or the version selector. *)
Inductive described : Type :=
  | DPath (p : string)
  | DStr (s : string)
  | DArgs (d : gmap string pyval)
  | DVersion (v : option Version).

Definition _describe (self : SVMLightDataset) : gmap string described :=
  <["filepath" := DPath (_filepath self)]>
    (<["protocol" := DStr (_protocol self)]>
       (<["load_args" := DArgs (_load_args self)]>
          (<["save_args" := DArgs (_save_args self)]>
             (<["version" := DVersion (_version self)]> ∅)))).

(** ** What the constructor computes *)

(** The contents of a mapping argument as the caller handed it in:
    [None] counts as no entries. *)
Definition caller_dict (st : gmap loc (gmap string pyval)) (o : option loc)
  : gmap string pyval :=
  match o with
  | None => ∅
  | Some l => default ∅ (st !! l)
  end.

(** A mapping argument is [None] or names a live object. *)
Definition arg_ok (st : gmap loc (gmap string pyval)) (o : option loc) : Prop :=
  match o with
  | None => True
  | Some l => is_Some (st !! l)
  end.

(** What reading the argument [o or {}] gives in a store. *)
Definition read_arg (st : gmap loc (gmap string pyval)) (o : option loc)
  : result (gmap string pyval) :=
  match o with
  | None => Ok ∅
  | Some l =>
      match st !! l with
      | Some d => Ok d
      | None => Raise (OtherError "SystemError" "dangling reference")
      end
  end.

(** The sub-map the caller put under key [k] of [fs_args]; no key, or a
    false value there, is an empty sub-map. *)
Definition caller_open_args (st : gmap loc (gmap string pyval)) (fs_args : option loc)
    (k : string) : gmap string pyval :=
  match caller_dict st fs_args !! k with
  | Some (VDict d) => d
  | _ => ∅
  end.

(** The contents of a mapping after [setdefault(k, v)]. *)
Definition setdefault (k : string) (v : pyval) (d : gmap string pyval)
  : gmap string pyval :=
  match d !! k with
  | Some _ => d
  | None => <[k := v]> d
  end.

(** What is left of [fs_args] when the filesystem is constructed: the
    reserved keys are gone and, for the local protocol, [auto_mkdir] is
    set if it was not. *)
Definition filesystem_args (protocol : string) (d_fs : gmap string pyval)
  : gmap string pyval :=
  let rest := delete "open_args_save" (delete "open_args_load" d_fs) in
  if bool_decide (protocol = "file")
  then setdefault "auto_mkdir" (VBool true) rest else rest.

(** A value the merge of open options accepts under a reserved key:
    none, a false one, or a mapping. *)
Definition mapping_or_false (o : option pyval) : Prop :=
  match o with
  | None => True
  | Some v => truthy v = false ∨ ∃ d, v = VDict d
  end.

(** The constructor as a function of the contents of its mapping
    arguments: its result, the outside state it leaves and the calls it
    makes.  [init_refines] below proves that [__init__] computes it. *)
Definition init_outcome (filepath : string) (version : option Version)
    (metadata : option loc) (d_fs d_cr : gmap string pyval)
    (r_la r_sa : result (gmap string pyval)) (x : X E)
  : result SVMLightDataset * X E * list event :=
  let v_load := dict_get d_fs "open_args_load" (VDict ∅) in
  let d1 := delete "open_args_load" d_fs in
  let v_save := dict_get d1 "open_args_save" (VDict ∅) in
  let d2 := delete "open_args_save" d1 in
  match get_protocol_and_path E filepath version with
  | Raise e => (Raise e, x, [])
  | Ok pp =>
      let d3 := if bool_decide (pp.1 = "file")
                then setdefault "auto_mkdir" (VBool true) d2 else d2 in
      match kwargs2 d_cr d3 with
      | Raise e => (Raise e, x, [])
      | Ok kw =>
          let '(rf, x') := fsspec_filesystem E pp.1 kw x in
          (fs ← rf;
           la ← r_la;
           largs ← dict_display (VDict DEFAULT_LOAD_ARGS) (VDict la);
           sa ← r_sa;
           sargs ← dict_display (VDict DEFAULT_SAVE_ARGS) (VDict sa);
           oload ← dict_display (dict_get DEFAULT_FS_ARGS "open_args_load" (VDict ∅))
                                (py_or v_load (VDict ∅));
           osave ← dict_display (dict_get DEFAULT_FS_ARGS "open_args_save" (VDict ∅))
                                (py_or v_save (VDict ∅));
           mret {| _protocol := pp.1;
                   _fs := fs;
                   metadata := metadata;
                   _filepath := PurePosixPath E pp.2;
                   _version := version;
                   _load_args := largs;
                   _save_args := sargs;
                   _fs_open_args_load := oload;
                   _fs_open_args_save := osave |},
           x', [EvFilesystem pp.1 kw rf])
      end
  end.

End Adapter.

Arguments world E : clear implicits.
Arguments event E : clear implicits.
Arguments SVMLightDataset E : clear implicits.
Arguments M E A : clear implicits.
Arguments store {E} w.
Arguments ext {E} w.
Arguments log {E} w.
Arguments mkWorld {E} store ext log.
Arguments EvFilesystem {E} protocol kwargs r.
Arguments EvLoadPath {E} r.
Arguments EvSavePath {E} r.
Arguments EvOpen {E} fs path kwargs r.
Arguments EvExit {E} s r.
Arguments EvDecode {E} s kwargs r.
Arguments EvEncode {E} m v s kwargs r.
Arguments EvExists {E} fs path r.
Arguments EvInvalidate {E} fs path r.
Arguments EvRelease {E} r.
Arguments _protocol {E} self : rename.
Arguments _fs {E} self : rename.
Arguments metadata {E} self : rename.
Arguments _filepath {E} self : rename.
Arguments _version {E} self : rename.
Arguments _load_args {E} self : rename.
Arguments _save_args {E} self : rename.
Arguments _fs_open_args_load {E} self : rename.
Arguments _fs_open_args_save {E} self : rename.
Arguments lift {E A} r w.
Arguments call {E A} op ev w.
Arguments with_ {E A} ctx body w.
Arguments try_except_DatasetError {E A} body handler w.
Arguments deref {E} l w.
Arguments alloc {E} d w.
Arguments assign {E} l d w.
Arguments deepcopy {E} o.
Arguments or_new_dict {E} o.
Arguments or_empty {E} o.
Arguments dict_pop {E} l k dflt.
Arguments dict_setdefault {E} l k v.
Arguments caller_dict st o : clear implicits.
Arguments arg_ok st o : clear implicits.
Arguments read_arg st o : clear implicits.
Arguments caller_open_args st fs_args k : clear implicits.
Arguments setdefault k v d : clear implicits.
Arguments filesystem_args protocol d_fs : clear implicits.
Arguments mapping_or_false o : clear implicits.
Arguments _describe {E} self.
Arguments load {E} self w.
Arguments save {E} self data w.
Arguments _exists {E} self w.
Arguments _release {E} self w.
Arguments _invalidate_cache {E} self w.

(** ** Reading the log *)

(** The calls made between two worlds of one run. *)
Definition since {E : Externals} (w w' : world E) : list (event E) :=
  drop (length (log w)) (log w').

(** Every stream obtained from a successful [open] meets its [__exit__]
    later in the same list of calls. *)
Fixpoint streams_released {E : Externals} (evs : list (event E)) : Prop :=
  match evs with
  | [] => True
  | EvOpen _ _ _ (Ok s) :: rest =>
      (∃ r, EvExit s r ∈ rest) ∧ streams_released rest
  | _ :: rest => streams_released rest
  end.

(** The paths whose cached metadata was invalidated, in call order. *)
Fixpoint invalidated {E : Externals} (evs : list (event E)) : list string :=
  match evs with
  | [] => []
  | EvInvalidate _ p _ :: rest => p :: invalidated rest
  | _ :: rest => invalidated rest
  end.

(** The paths at which a stream was successfully opened, in call order. *)
Fixpoint opened {E : Externals} (evs : list (event E)) : list string :=
  match evs with
  | [] => []
  | EvOpen _ p _ (Ok _) :: rest => p :: opened rest
  | _ :: rest => opened rest
  end.

(** The keyword arguments of every [open] call, in call order. *)
Fixpoint open_kwargs {E : Externals} (evs : list (event E))
  : list (gmap string pyval) :=
  match evs with
  | [] => []
  | EvOpen _ _ kw _ :: rest => kw :: open_kwargs rest
  | _ :: rest => open_kwargs rest
  end.

(** ** A reference instance of the collaborators *)

(** An in-memory filesystem, kedro's path conventions and a codec over
    integer matrices, small enough to run the adapter on concrete
    inputs. *)
Module Mem.

Inductive content : Type :=
  | Svm (m : list (list Z)) (v : list Z)
  | Garbage.

Record file : Type := mkFile {
  f_path : string;
  f_mode : string
}.

(** Stored files, the version tokens a glob can find, and the token the
    next versioned save gets. *)
Record state : Type := mkState {
  files : gmap string content;
  tokens : list string;
  clock : string
}.

(** Last component of a POSIX path. *)
Fixpoint name_from (s acc : string) : string :=
  match s with
  | EmptyString => acc
  | String c rest =>
      if Ascii.eqb c "/"%char then name_from rest EmptyString
      else name_from rest (acc +:+ String c EmptyString)
  end.

Definition name (s : string) : string := name_from s EmptyString.

(** [filepath / version / filepath.name] *)
Definition versioned_path (filepath version : string) : string :=
  filepath +:+ "/" +:+ version +:+ "/" +:+ name filepath.

Fixpoint drop_prefix (p s : string) : option string :=
  match p, s with
  | EmptyString, _ => Some s
  | String a p', String b s' => if Ascii.eqb a b then drop_prefix p' s' else None
  | String _ _, EmptyString => None
  end.

(** Protocols other than the local one are recognised by their prefix. *)
Definition protocol_and_path (filepath : string) (version : option Version)
  : result (string * string) :=
  match drop_prefix "s3://" filepath with
  | Some rest => Ok ("s3", rest)
  | None =>
      match drop_prefix "https://" filepath with
      | Some rest =>
          match version with
          | Some _ => Raise (DatasetError "Versioning is not supported for HTTP protocols")
          | None => Ok ("https", rest)
          end
      | None => Ok ("file", filepath)
      end
  end.

Definition filepath_str (path protocol : string) : string :=
  if bool_decide (protocol = "https") then protocol +:+ "://" +:+ path else path.

Definition new_filesystem (protocol : string) (kwargs : gmap string pyval)
    (x : state) : result string * state :=
  if bool_decide (protocol ∈ ["file"; "s3"; "https"]) then (Ok protocol, x)
  else (Raise (OtherError "ValueError" "Protocol not known"), x).

Definition open (fs path : string) (kwargs : gmap string pyval) (x : state)
  : result file * state :=
  match kwargs !! "mode" with
  | Some (VStr "rb") =>
      match files x !! path with
      | Some _ => (Ok (mkFile path "rb"), x)
      | None => (Raise (OtherError "FileNotFoundError" path), x)
      end
  | Some (VStr "wb") =>
      (Ok (mkFile path "wb"),
       mkState (<[path := Svm [] []]> (files x)) (tokens x) (clock x))
  | _ => (Raise (OtherError "ValueError" "unsupported mode"), x)
  end.

Definition exit (f : file) (x : state) : result unit * state := (Ok (), x).

Definition exists_ (fs path : string) (x : state) : result bool * state :=
  (Ok (bool_decide (is_Some (files x !! path))), x).

Definition invalidate_cache (fs path : string) (x : state) : result unit * state :=
  (Ok (), x).

Definition decode (f : file) (kwargs : gmap string pyval) (x : state)
  : result (list (list Z) * list Z) * state :=
  match files x !! f_path f with
  | Some (Svm m v) => (Ok (m, v), x)
  | _ => (Raise (OtherError "ValueError" "malformed svmlight file"), x)
  end.

Definition encode (m : list (list Z)) (v : list Z) (f : file)
    (kwargs : gmap string pyval) (x : state) : result unit * state :=
  if bool_decide (length m = length v)
  then (Ok (), mkState (<[f_path f := Svm m v]> (files x)) (tokens x) (clock x))
  else (Raise (OtherError "ValueError" "X and y have different lengths"), x).

(** The load path: the logical path when unversioned, the pinned version
    when one is given, else the first token with a file behind it. *)
Definition get_load_path (filepath : string) (version : option Version)
    (fs : string) (x : state) : result string * state :=
  match version with
  | None => (Ok filepath, x)
  | Some ver =>
      match version_load ver with
      | Some t => (Ok (versioned_path filepath t), x)
      | None =>
          match
            List.find (λ t, bool_decide (is_Some (files x !! versioned_path filepath t)))
                      (tokens x)
          with
          | Some t => (Ok (versioned_path filepath t), x)
          | None => (Raise (VersionNotFoundError "Did not find any versions"), x)
          end
      end
  end.

(** The save path: the logical path when unversioned, else the path of
    the requested or the generated token, which must not exist yet. *)
Definition get_save_path (filepath : string) (version : option Version)
    (fs : string) (x : state) : result string * state :=
  match version with
  | None => (Ok filepath, x)
  | Some ver =>
      let t := default (clock x) (version_save ver) in
      let p := versioned_path filepath t in
      if bool_decide (is_Some (files x !! p))
      then (Raise (DatasetError "Save path must not exist if versioning is enabled"), x)
      else (Ok p, mkState (files x) (t :: tokens x) (clock x))
  end.

Definition release (filepath : string) (version : option Version) (fs : string)
    (x : state) : result unit * state := (Ok (), x).

Definition externals : Externals := {|
  X := state;
  filesystem := string;
  stream := file;
  matrix := list (list Z);
  labels := list Z;
  get_protocol_and_path := protocol_and_path;
  PurePosixPath := λ p, p;
  get_filepath_str := filepath_str;
  fsspec_filesystem := new_filesystem;
  fs_open := open;
  file_exit := exit;
  fs_exists := exists_;
  fs_invalidate_cache := invalidate_cache;
  load_svmlight_file := decode;
  dump_svmlight_file := encode;
  _get_load_path := get_load_path;
  _get_save_path := get_save_path;
  super_release := release
|}.

(** An empty disk, and a world with nothing in it. *)
Definition empty_state : state := mkState ∅ [] "2026-01-01T00.00.00.000Z".

Definition empty_world : world externals :=
  mkWorld (E := externals) ∅ empty_state [].

(** A disk whose only file is not in svmlight format. *)
Definition garbage_world : world externals :=
  mkWorld (E := externals) ∅
    (mkState {[ "data/x.svm" := Garbage ]} [] "2026-01-01T00.00.00.000Z") [].

(** A caller holding an [fs_args] mapping (object 1) and a [credentials]
    mapping (object 2). *)
Definition caller_fs_args : gmap string pyval :=
  <["open_args_load" := VDict (<["mode" := VStr "r"]> {[ "block_size" := VInt 1024 ]})]>
    {[ "project" := VStr "my-project" ]}.

Definition caller_credentials : gmap string pyval := {[ "token" := VNone ]}.

Definition caller_world : world externals :=
  mkWorld (E := externals)
    (<[1%positive := caller_fs_args]> {[ 2%positive := caller_credentials ]})
    empty_state [].

(** Two samples with two features each, and a pair the codec rejects:
    one row, no label. *)
Definition sample : list (list Z) * list Z := ([[0; 1]; [2; 3]], [7; 3])%Z.

Definition ragged : list (list Z) * list Z := ([[1]], [])%Z.

(** The adapter for [data/x.svm] built with no option at all, and the
    same with versioning switched on. *)
Definition plain : SVMLightDataset externals := {|
  _protocol := "file";
  _fs := ("file" : filesystem externals);
  metadata := None;
  _filepath := "data/x.svm";
  _version := None;
  _load_args := ∅;
  _save_args := ∅;
  _fs_open_args_load := {[ "mode" := VStr "rb" ]};
  _fs_open_args_save := {[ "mode" := VStr "wb" ]}
|}.

Definition versioned : SVMLightDataset externals := {|
  _protocol := "file";
  _fs := ("file" : filesystem externals);
  metadata := None;
  _filepath := "data/x.svm";
  _version := Some (mkVersion None None);
  _load_args := ∅;
  _save_args := ∅;
  _fs_open_args_load := {[ "mode" := VStr "rb" ]};
  _fs_open_args_save := {[ "mode" := VStr "wb" ]}
|}.

(** The adapter for an object-store path built from the caller's
    [fs_args] and [credentials]. *)
Definition tuned : SVMLightDataset externals := {|
  _protocol := "s3";
  _fs := ("s3" : filesystem externals);
  metadata := None;
  _filepath := "bucket/x.svm";
  _version := None;
  _load_args := ∅;
  _save_args := ∅;
  _fs_open_args_load :=
    <["mode" := VStr "r"]> {[ "block_size" := VInt 1024 ]};
  _fs_open_args_save := {[ "mode" := VStr "wb" ]}
|}.

(** The same collaborators with four faults: the storage protocol [s3]
    cannot be constructed, closing a stream opened for writing fails,
    listing the versions of a versioned dataset is not permitted, and
    the base release fails. *)
Definition faulty : Externals := {|
  X := state;
  filesystem := string;
  stream := file;
  matrix := list (list Z);
  labels := list Z;
  get_protocol_and_path := protocol_and_path;
  PurePosixPath := λ p, p;
  get_filepath_str := filepath_str;
  fsspec_filesystem := λ protocol kwargs x,
    if bool_decide (protocol = "s3")
    then (Raise (OtherError "ImportError" "Install s3fs to access S3"), x)
    else new_filesystem protocol kwargs x;
  fs_open := open;
  file_exit := λ f x,
    if bool_decide (f_mode f = "wb")
    then (Raise (OtherError "OSError" "upload failed"), x)
    else exit f x;
  fs_exists := exists_;
  fs_invalidate_cache := invalidate_cache;
  load_svmlight_file := decode;
  dump_svmlight_file := encode;
  _get_load_path := λ filepath version fs x,
    match version with
    | Some _ => (Raise (OtherError "PermissionError" "cannot list versions"), x)
    | None => get_load_path filepath version fs x
    end;
  _get_save_path := get_save_path;
  super_release := λ filepath version fs x,
    (Raise (OtherError "RuntimeError" "release failed"), x)
|}.

Definition faulty_world : world faulty := mkWorld (E := faulty) ∅ empty_state [].

(** [plain] over the faulty collaborators. *)
Definition plain_faulty : SVMLightDataset faulty := {|
  _protocol := "file";
  _fs := ("file" : filesystem faulty);
  metadata := None;
  _filepath := "data/x.svm";
  _version := None;
  _load_args := ∅;
  _save_args := ∅;
  _fs_open_args_load := {[ "mode" := VStr "rb" ]};
  _fs_open_args_save := {[ "mode" := VStr "wb" ]}
|}.

(** [versioned] over the faulty collaborators. *)
Definition versioned_faulty : SVMLightDataset faulty := {|
  _protocol := "file";
  _fs := ("file" : filesystem faulty);
  metadata := None;
  _filepath := "data/x.svm";
  _version := Some (mkVersion None None);
  _load_args := ∅;
  _save_args := ∅;
  _fs_open_args_load := {[ "mode" := VStr "rb" ]};
  _fs_open_args_save := {[ "mode" := VStr "wb" ]}
|}.

(** A disk on which the version about to be generated exists already. *)
Definition taken_world : world externals :=
  mkWorld (E := externals) ∅
    (mkState {[ "data/x.svm/2026-01-01T00.00.00.000Z/x.svm" := Garbage ]} []
       "2026-01-01T00.00.00.000Z") [].

(** A disk holding [sample] at [data/x.svm]. *)
Definition saved_world : world externals :=
  mkWorld (E := externals) ∅
    (mkState {[ "data/x.svm" := Svm sample.1 sample.2 ]} []
       "2026-01-01T00.00.00.000Z") [].

(** A caller whose credentials (object 2) carry [auto_mkdir], one whose
    [fs_args] (object 1) give a string where a sub-map is expected, and
    one with codec options (objects 3 and 4) and an empty [fs_args]
    (object 1). *)
Definition clash_world : world externals :=
  mkWorld (E := externals) {[ 2%positive := {[ "auto_mkdir" := VBool false ]} ]}
    empty_state [].

Definition bad_open_args_world : world externals :=
  mkWorld (E := externals)
    {[ 1%positive := {[ "open_args_load" := VStr "rb" ]} ]} empty_state [].

Definition codec_args_world : world externals :=
  mkWorld (E := externals)
    (<[1%positive := ∅]>
       (<[3%positive := {[ "zero_based" := VBool false ]}]>
          {[ 4%positive := {[ "zero_based" := VBool false ]} ]}))
    empty_state [].

(** The adapter built in [codec_args_world] from objects 3 and 4. *)
Definition one_based : SVMLightDataset externals := {|
  _protocol := "file";
  _fs := ("file" : filesystem externals);
  metadata := Some 4%positive;
  _filepath := "data/x.svm";
  _version := None;
  _load_args := {[ "zero_based" := VBool false ]};
  _save_args := {[ "zero_based" := VBool false ]};
  _fs_open_args_load := {[ "mode" := VStr "rb" ]};
  _fs_open_args_save := {[ "mode" := VStr "wb" ]}
|}.

End Mem.

(** ** Statements as the specification words them *)

(** "After a save the cached metadata of the path just written is
    invalidated": the paths invalidated by a successful [save] are the
    paths it opened. *)
Definition save_invalidates_written_path {E : Externals} (self : SVMLightDataset E)
    (data : matrix E * labels E) (w : world E) : Prop :=
  (save self data w).1 = Ok () →
  invalidated (since w (save self data w).2) = opened (since w (save self data w).2).

(** "When the encode routine raises, that error propagates to the caller
    and the cache is not invalidated". *)
Definition save_propagates_encode_error {E : Externals} (self : SVMLightDataset E)
    (data : matrix E * labels E) (w : world E) : Prop :=
  ∀ m v s kw e,
    EvEncode m v s kw (Raise e) ∈ since w (save self data w).2 →
    (save self data w).1 = Raise e
    ∧ invalidated (since w (save self data w).2) = [].

(** "Exactly the remaining fs_args keys, together with the credentials,
    reach the filesystem constructor". *)
Definition constructor_gets_exactly_remaining (E : Externals) (filepath : string)
    (load_args save_args : option loc) (version : option Version)
    (credentials fs_args metadata : option loc) (w : world E) : Prop :=
  ∀ protocol kw rf,
    EvFilesystem protocol kw rf
      ∈ since w (__init__ E filepath load_args save_args version credentials
                   fs_args metadata w).2 →
    kw = caller_dict (store w) credentials
         ∪ delete "open_args_save"
             (delete "open_args_load" (caller_dict (store w) fs_args)).

(** * Properties *)

Section Properties.
Context {E : Externals}.
Implicit Types (w : world E) (self : SVMLightDataset E) (st : gmap loc (gmap string pyval)).

Lemma bind_ok {A B} (m : M E A) (f : A → M E B) w a w1 :
  m w = (Ok a, w1) → (m ≫= f) w = f a w1.
Proof. intros H. unfold mbind, M_bind. by rewrite H. Qed.

Lemma fresh_None st : st !! fresh (dom st) = None.
Proof. apply not_elem_of_dom, is_fresh. Qed.

Lemma copy_or_new_spec o w :
  arg_ok (store w) o →
  ∃ l st', (deepcopy o ≫= or_new_dict) w = (Ok l, mkWorld st' (ext w) (log w))
    ∧ store w ⊆ st' ∧ store w !! l = None
    ∧ st' !! l = Some (caller_dict (store w) o).
Proof.
  destruct w as [st x lg]; destruct o as [l|]; simpl.
  - intros [d Hd].
    unfold mbind, M_bind, deepcopy, mbind, M_bind, deref, alloc, mret, M_ret; simpl.
    rewrite Hd; simpl. unfold mbind, M_bind, deref; simpl.
    rewrite lookup_insert_eq. case_bool_decide as Hemp; simpl.
    + unfold alloc; simpl. eexists _, _; split; [reflexivity|].
      pose proof (fresh_None st) as F1.
      pose proof (fresh_None (<[fresh (dom st) := d]> st)) as F2.
      split_and!.
      * etrans; [|apply insert_subseteq; exact F2]. by apply insert_subseteq.
      * apply lookup_insert_None in F2. tauto.
      * by rewrite lookup_insert_eq, Hemp.
    + unfold mret, M_ret. eexists _, _; split; [reflexivity|].
      split_and!; [apply insert_subseteq|..]; auto using fresh_None.
      by rewrite lookup_insert_eq.
  - intros _. unfold mbind, M_bind, deepcopy, mret, M_ret, or_new_dict, alloc; simpl.
    eexists _, _; split; [reflexivity|].
    split_and!; [apply insert_subseteq|..]; auto using fresh_None.
    by rewrite lookup_insert_eq.
Qed.

Lemma dict_pop_spec l k dflt w d :
  store w !! l = Some d →
  dict_pop l k dflt w =
    (Ok (dict_get d k dflt), mkWorld (<[l := delete k d]> (store w)) (ext w) (log w)).
Proof.
  intros Hl. destruct w as [st x lg]; simpl in *.
  unfold dict_pop, dict_get, mbind, M_bind, deref, assign, mret, M_ret; simpl.
  rewrite Hl. destruct (d !! k) eqn:Hk; simpl; [done|].
  rewrite delete_id by done. by rewrite insert_id.
Qed.

Lemma dict_setdefault_spec l k v w d :
  store w !! l = Some d →
  dict_setdefault l k v w =
    (Ok (default v (d !! k)),
     mkWorld (<[l := setdefault k v d]> (store w)) (ext w) (log w)).
Proof.
  intros Hl. destruct w as [st x lg]; simpl in *.
  unfold dict_setdefault, setdefault, mbind, M_bind, deref, assign, mret, M_ret; simpl.
  rewrite Hl. destruct (d !! k) eqn:Hk; simpl; [|done].
  by rewrite insert_id.
Qed.


Lemma deref_spec l w d : store w !! l = Some d → deref l w = (Ok d, w).
Proof. intros H. unfold deref. by rewrite H. Qed.

Lemma or_empty_spec o w : or_empty o w = (read_arg (store w) o, w).
Proof.
  destruct o as [l|]; simpl; [|done].
  unfold deref. by destruct (store w !! l).
Qed.

Lemma caller_dict_weaken st st' o :
  arg_ok st o → st ⊆ st' → arg_ok st' o ∧ caller_dict st' o = caller_dict st o.
Proof.
  destruct o as [l|]; simpl; [|done].
  intros [d Hd] Hsub. pose proof (lookup_weaken _ _ _ _ Hd Hsub) as Hd'.
  rewrite Hd, Hd'. eauto.
Qed.

Lemma init_refines filepath la sa ver cred fsa md w :
  arg_ok (store w) fsa → arg_ok (store w) cred →
  ∃ st', store w ⊆ st' ∧
    __init__ E filepath la sa ver cred fsa md w =
      let '(r, x, evs) :=
        init_outcome E filepath ver md
          (caller_dict (store w) fsa) (caller_dict (store w) cred)
          (read_arg st' la) (read_arg st' sa) (ext w) in
      (r, mkWorld st' x (log w ++ evs)).
Proof.
  intros Hfs Hcr. unfold __init__, init_outcome.
  destruct (copy_or_new_spec fsa w Hfs) as (l1 & st1 & H1 & Hsub1 & Hfr1 & Hl1).
  rewrite (bind_ok _ _ _ _ _ H1).
  set (d0 := caller_dict (store w) fsa) in *.
  rewrite (bind_ok _ _ _ _ _ (dict_pop_spec l1 _ _ (mkWorld st1 _ _) d0 Hl1)); simpl.
  set (d1 := delete "open_args_load" d0).
  set (st2 := <[l1 := d1]> st1).
  assert (Hl2 : st2 !! l1 = Some d1) by apply lookup_insert_eq.
  rewrite (bind_ok _ _ _ _ _ (dict_pop_spec l1 _ _ (mkWorld st2 _ _) d1 Hl2)); simpl.
  set (d2 := delete "open_args_save" d1).
  set (st3 := <[l1 := d2]> st2).
  assert (Hsub3 : store w ⊆ st3).
  { subst st3 st2. apply insert_subseteq_r; [done|]. by apply insert_subseteq_r. }
  destruct (caller_dict_weaken _ _ cred Hcr Hsub3) as [Hcr3 Hcd3].
  destruct (copy_or_new_spec cred (mkWorld st3 (ext w) (log w)) Hcr3)
    as (l2 & st4 & H2 & Hsub4 & Hfr2 & Hl2'); simpl in *.
  rewrite (bind_ok _ _ _ _ _ H2). rewrite Hcd3 in Hl2'.
  assert (Hne : l1 ≠ l2).
  { intros ->. subst st3. by rewrite lookup_insert_eq in Hfr2. }
  assert (Hl14 : st4 !! l1 = Some d2).
  { eapply lookup_weaken; [|exact Hsub4]. subst st3. apply lookup_insert_eq. }
  unfold lift at 1. unfold mbind at 1, M_bind at 1.
  destruct (get_protocol_and_path E filepath ver) as [[protocol path]|e]; simpl.
  2:{ exists st4. split; [by etrans|]. by rewrite app_nil_r. }
  set (d3 := if bool_decide (protocol = "file")
             then setdefault "auto_mkdir" (VBool true) d2 else d2).
  set (st5 := <[l1 := d3]> st4).
  assert (Hstep : ((if bool_decide (protocol = "file")
            then dict_setdefault l1 "auto_mkdir" (VBool true);; mret ()
            else mret ()) : M E ()) (mkWorld st4 (ext w) (log w))
          = (Ok (), mkWorld st5 (ext w) (log w))).
  { subst st5 d3. case_bool_decide.
    - by rewrite (bind_ok _ _ _ _ _ (dict_setdefault_spec l1 _ _ (mkWorld st4 _ _) d2 Hl14)).
    - by rewrite insert_id. }
  rewrite (bind_ok _ _ _ _ _ Hstep).
  assert (Hl25 : st5 !! l2 = Some (caller_dict (store w) cred)).
  { subst st5. by rewrite lookup_insert_ne. }
  assert (Hl15 : st5 !! l1 = Some d3) by apply lookup_insert_eq.
  rewrite (bind_ok _ _ _ _ _ (deref_spec l2 (mkWorld st5 _ _) _ Hl25)).
  rewrite (bind_ok _ _ _ _ _ (deref_spec l1 (mkWorld st5 _ _) _ Hl15)).
  assert (Hsub5 : store w ⊆ st5).
  { subst st5. apply insert_subseteq_r; [done|]. by etrans. }
  exists st5. split; [done|].
  unfold lift at 1. unfold mbind at 1, M_bind at 1.
  destruct (kwargs2 _ d3) as [kw|e]; simpl.
  2:{ by rewrite app_nil_r. }
  unfold call at 1. unfold mbind at 1, M_bind at 1. simpl.
  destruct (fsspec_filesystem E protocol kw (ext w)) as [[fs|e] x']; simpl; [|done].
  unfold mbind at 1, M_bind at 1. rewrite or_empty_spec; simpl.
  destruct (read_arg st5 la) as [dla|e]; [|reflexivity].
  erewrite bind_ok by reflexivity.
  unfold mbind at 1, M_bind at 1. rewrite or_empty_spec. cbn [store].
  destruct (read_arg st5 sa) as [dsa|e]; [|reflexivity].
  erewrite bind_ok by reflexivity.
  destruct (dict_display _ (py_or (dict_get d0 _ _) _)) as [oload|e]; [|reflexivity].
  destruct (dict_display _ (py_or (dict_get d1 _ _) _)) as [osave|e]; reflexivity.
Qed.



Lemma since_app w (evs : list (event E)) st x :
  since w (mkWorld st x (log w ++ evs)) = evs.
Proof. unfold since; simpl. apply drop_app_length. Qed.

Lemma since_nil w st x : since w (mkWorld st x (log w)) = [].
Proof. unfold since; simpl. apply drop_all. Qed.

(** The constructor on live arguments: the objects that were there
    before are untouched, and result, outside state and calls are those
    of [init_outcome]. *)
Lemma init_run filepath la sa ver cred fsa md w :
  arg_ok (store w) fsa → arg_ok (store w) cred →
  ∃ st',
    store w ⊆ st' ∧
    store (__init__ E filepath la sa ver cred fsa md w).2 = st' ∧
    let o := init_outcome E filepath ver md
               (caller_dict (store w) fsa) (caller_dict (store w) cred)
               (read_arg st' la) (read_arg st' sa) (ext w) in
    (__init__ E filepath la sa ver cred fsa md w).1 = o.1.1 ∧
    ext (__init__ E filepath la sa ver cred fsa md w).2 = o.1.2 ∧
    since w (__init__ E filepath la sa ver cred fsa md w).2 = o.2.
Proof.
  intros Hfs Hcr.
  destruct (init_refines filepath la sa ver cred fsa md w Hfs Hcr) as (st' & Hsub & ->).
  exists st'. split; [done|].
  destruct (init_outcome _ _ _ _ _ _ _ _ _) as [[r x] evs]; simpl.
  by rewrite since_app.
Qed.

Lemma default_open_args_load :
  dict_get DEFAULT_FS_ARGS "open_args_load" (VDict ∅) = VDict {[ "mode" := VStr "rb" ]}.
Proof. unfold dict_get, DEFAULT_FS_ARGS. by rewrite lookup_insert_ne, lookup_insert_eq. Qed.

Lemma default_open_args_save :
  dict_get DEFAULT_FS_ARGS "open_args_save" (VDict ∅) = VDict {[ "mode" := VStr "wb" ]}.
Proof. unfold dict_get, DEFAULT_FS_ARGS. by rewrite lookup_insert_eq. Qed.

(** Merging the value found under a reserved key over a default. *)
Lemma merge_open_args (dflt : gmap string pyval) (o : option pyval) m :
  dict_display (VDict dflt) (py_or (default (VDict ∅) o) (VDict ∅)) = Ok m →
  m = match o with Some (VDict d) => d | _ => ∅ end ∪ dflt.
Proof.
  unfold dict_display, py_or.
  destruct o as [[|b|z|s|l|d]|]; simpl;
    repeat (case_match || case_bool_decide); simpl; unfold mret, result_ret;
    intros; simplify_eq; done.
Qed.

(** A successful construction: the fields of the adapter. *)
Lemma init_outcome_ok filepath ver md d_fs d_cr r_la r_sa x self :
  (init_outcome E filepath ver md d_fs d_cr r_la r_sa x).1.1 = Ok self →
  _fs_open_args_load self
    = match d_fs !! "open_args_load" with Some (VDict d) => d | _ => ∅ end
      ∪ {[ "mode" := VStr "rb" ]}
  ∧ _fs_open_args_save self
    = match d_fs !! "open_args_save" with Some (VDict d) => d | _ => ∅ end
      ∪ {[ "mode" := VStr "wb" ]}
  ∧ ∃ path, get_protocol_and_path E filepath ver = Ok (_protocol self, path)
            ∧ _filepath self = PurePosixPath E path.
Proof.
  unfold init_outcome.
  destruct (get_protocol_and_path E filepath ver) as [[protocol path]|e]; simpl; [|done].
  destruct (kwargs2 _ _) as [kw|e]; simpl; [|done].
  destruct (fsspec_filesystem E protocol kw x) as [[fs|e] x']; simpl; [|done].
  destruct r_la as [dla|e]; simpl; [|done].
  destruct r_sa as [dsa|e]; simpl; [|done].
  rewrite default_open_args_load, default_open_args_save.
  destruct (dict_display _ (py_or (dict_get d_fs _ _) _)) as [oload|e] eqn:Hl;
    simpl; [|done].
  destruct (dict_display _ (py_or (dict_get (delete _ d_fs) _ _) _)) as [osave|e] eqn:Hs;
    simpl; [|done].
  intros [= <-]; simpl.
  apply merge_open_args in Hl. unfold dict_get in Hs.
  rewrite lookup_delete_ne in Hs by done. apply merge_open_args in Hs.
  eauto.
Qed.

(** The one call a construction can make. *)
Lemma init_outcome_call filepath ver md d_fs d_cr r_la r_sa x protocol kw rf :
  EvFilesystem protocol kw rf ∈ (init_outcome E filepath ver md d_fs d_cr r_la r_sa x).2 →
  (∃ path, get_protocol_and_path E filepath ver = Ok (protocol, path))
  ∧ kwargs2 d_cr
      (if bool_decide (protocol = "file")
       then setdefault "auto_mkdir" (VBool true)
              (delete "open_args_save" (delete "open_args_load" d_fs))
       else delete "open_args_save" (delete "open_args_load" d_fs)) = Ok kw.
Proof.
  unfold init_outcome.
  destruct (get_protocol_and_path E filepath ver) as [[proto path]|e]; simpl.
  2:{ by intros ?%elem_of_nil. }
  destruct (kwargs2 _ _) as [kw'|e] eqn:Hkw; simpl.
  2:{ by intros ?%elem_of_nil. }
  destruct (fsspec_filesystem E proto kw' x) as [rf' x']; simpl.
  intros [= -> -> ->]%list_elem_of_singleton. eauto.
Qed.

(** ** Runs of [load], [save] and [_exists] *)

Ltac run_method m :=
  unfold m, with_, _invalidate_cache, try_except_DatasetError, call,
    mbind, M_bind, mret, M_ret; simpl.

Ltac oracle :=
  match goal with
  | |- context [match ?op (ext ?w) with _ => _ end] =>
      destruct (op (ext w)) as [[?|?] ?] eqn:?; simpl
  | |- context [let '(_, _) := ?op ?x in _] =>
      destruct (op x) as [[?|?] ?] eqn:?; simpl
  end.

Ltac read_log := rewrite <- ?app_assoc; simpl; rewrite ?since_app, ?since_nil; simpl.

Ltac in_log H :=
  repeat (apply elem_of_cons in H as [H|H]); try (by apply elem_of_nil in H);
  simplify_eq.

(** The calls of a [load], outcome by outcome. *)
Lemma load_calls self w :
  let fs := _fs self in
  let evs := since w (load self w).2 in
  (∃ e, evs = [EvLoadPath (Raise e)] ∧ (load self w).1 = Raise e)
  ∨ ∃ p, let path := get_filepath_str E p (_protocol self) in
      let kw := _fs_open_args_load self in
      (∃ e, evs = [EvLoadPath (Ok p); EvOpen fs path kw (Raise e)]
            ∧ (load self w).1 = Raise e)
      ∨ ∃ s rd rx,
          evs = [EvLoadPath (Ok p); EvOpen fs path kw (Ok s);
                 EvDecode s (_load_args self) rd; EvExit s rx]
          ∧ (load self w).1 = match rx with Ok _ => rd | Raise e => Raise e end.
Proof.
  run_method @load. repeat oracle; read_log; eauto 10.
  all: right; eexists; right; eexists _, _, _; split; [reflexivity|]; done.
Qed.

(** The calls of a [save], outcome by outcome. *)
Lemma save_calls self data w :
  let fs := _fs self in
  let evs := since w (save self data w).2 in
  (∃ e, evs = [EvSavePath (Raise e)] ∧ (save self data w).1 = Raise e)
  ∨ ∃ p, let path := get_filepath_str E p (_protocol self) in
      let kw := _fs_open_args_save self in
      (∃ e, evs = [EvSavePath (Ok p); EvOpen fs path kw (Raise e)]
            ∧ (save self data w).1 = Raise e)
      ∨ ∃ s, let enc := EvEncode data.1 data.2 s (_save_args self) in
          (∃ e rx, evs = [EvSavePath (Ok p); EvOpen fs path kw (Ok s);
                          enc (Raise e); EvExit s rx]
                   ∧ (save self data w).1
                     = Raise (match rx with Ok _ => e | Raise e' => e' end))
          ∨ (∃ e, evs = [EvSavePath (Ok p); EvOpen fs path kw (Ok s);
                         enc (Ok ()); EvExit s (Raise e)]
                  ∧ (save self data w).1 = Raise e)
          ∨ ∃ ri, evs = [EvSavePath (Ok p); EvOpen fs path kw (Ok s);
                         enc (Ok ()); EvExit s (Ok ());
                         EvInvalidate fs
                           (get_filepath_str E (_filepath self) (_protocol self)) ri]
                  ∧ (save self data w).1 = ri.
Proof.
  run_method @save. repeat oracle; read_log.
  all: repeat match goal with u : () |- _ => destruct u end.
  all: eauto 15.
  all: right; eexists; right; eexists; eauto 10.
Qed.

(** C4.  A stream that [load] or [save] obtained from the filesystem
    meets its [__exit__] before the method returns or raises, whatever
    the outcome; when the decode or the encode routine raises, the
    [__exit__] of its stream is the next and last call and the method
    raises. *)
Theorem streams_closed_on_every_exit self data w :
  streams_released (since w (load self w).2)
  ∧ streams_released (since w (save self data w).2)
  ∧ (∀ s kw e, EvDecode s kw (Raise e) ∈ since w (load self w).2 →
       ∃ pre rx e', since w (load self w).2
                    = pre ++ [EvDecode s kw (Raise e); EvExit s rx]
                  ∧ (load self w).1 = Raise e')
  ∧ (∀ m v s kw e, EvEncode m v s kw (Raise e) ∈ since w (save self data w).2 →
       ∃ pre rx e', since w (save self data w).2
                    = pre ++ [EvEncode m v s kw (Raise e); EvExit s rx]
                  ∧ (save self data w).1 = Raise e').
Proof.
  split_and!.
  - destruct (load_calls self w) as [(e & -> & _)|(p & [(e & -> & _)|(s & rd & rx & -> & _)])];
      simpl; try done.
    split; [|done]. exists rx. rewrite !elem_of_cons. auto.
  - destruct (save_calls self data w)
      as [(e & -> & _)|(p & [(e & -> & _)|(s & [(e & rx & -> & _)|[(e & -> & _)|(ri & -> & _)]])])];
      simpl; try done.
    all: split; [|done]; eexists; rewrite !elem_of_cons; eauto.
  - intros s kw e Hin.
    destruct (load_calls self w)
      as [(e0 & Hev & _)|(p & [(e0 & Hev & _)|(s0 & rd & rx & Hev & Hr)])];
      rewrite Hev in Hin |- *; in_log Hin.
    destruct rx; (eexists [_; _], _, _; split; [reflexivity|by rewrite Hr]).
  - intros m v s kw e Hin.
    destruct (save_calls self data w)
      as [(e0 & Hev & _)|(p & [(e0 & Hev & _)
            |(s0 & [(e0 & rx & Hev & Hr)|[(e0 & Hev & _)|(ri & Hev & _)]])])];
      rewrite Hev in Hin |- *; in_log Hin.
    eexists [_; _], rx, _. split; [reflexivity|by rewrite Hr].
Qed.

(** C2, as amended.  A successful [save] makes exactly these calls, in
    this order: resolve the save path, open it, encode, [__exit__] the
    stream, then invalidate the cached metadata of the adapter's own
    logical path and of nothing else.  That is the path just written
    whenever the resolved save path is the logical path. *)
Theorem save_invalidates_logical_path self data w :
  (save self data w).1 = Ok () →
  ∃ p s,
    since w (save self data w).2
    = [EvSavePath (Ok p);
       EvOpen (_fs self) (get_filepath_str E p (_protocol self))
         (_fs_open_args_save self) (Ok s);
       EvEncode data.1 data.2 s (_save_args self) (Ok ());
       EvExit s (Ok ());
       EvInvalidate (_fs self)
         (get_filepath_str E (_filepath self) (_protocol self)) (Ok ())]
    ∧ invalidated (since w (save self data w).2)
      = [get_filepath_str E (_filepath self) (_protocol self)]
    ∧ (p = _filepath self →
       invalidated (since w (save self data w).2)
       = opened (since w (save self data w).2)).
Proof.
  intros Hok.
  destruct (save_calls self data w)
    as [(e0 & Hev & Hr)|(p & [(e0 & Hev & Hr)
          |(s0 & [(e0 & rx & Hev & Hr)|[(e0 & Hev & Hr)|(ri & Hev & Hr)]])])];
    rewrite Hr in Hok; try discriminate.
  subst ri. exists p, s0. rewrite Hev. simpl. split_and!; [done..|].
  by intros ->.
Qed.

(** C10, as amended.  When the encode routine raises, the stream is
    exited next and [save] raises: the encode error if the exit
    succeeds, the error of the exit if it raises in turn; in both cases
    no cache is invalidated.  An invalidation is always the last call of
    a [save], right after an encode and an [__exit__] that both
    succeeded. *)
Theorem encode_failure_skips_invalidation self data w :
  (∀ m v s kw e, EvEncode m v s kw (Raise e) ∈ since w (save self data w).2 →
     invalidated (since w (save self data w).2) = []
     ∧ ∃ pre rx,
         since w (save self data w).2
         = pre ++ [EvEncode m v s kw (Raise e); EvExit s rx]
         ∧ (save self data w).1
           = Raise (match rx with Ok _ => e | Raise e' => e' end))
  ∧ (∀ fs p r, EvInvalidate fs p r ∈ since w (save self data w).2 →
       ∃ pre m v s kw,
         since w (save self data w).2
         = pre ++ [EvEncode m v s kw (Ok ()); EvExit s (Ok ()); EvInvalidate fs p r]).
Proof.
  split.
  - intros m v s kw e Hin.
    destruct (save_calls self data w)
      as [(e0 & Hev & Hr)|(p & [(e0 & Hev & Hr)
            |(s0 & [(e0 & rx & Hev & Hr)|[(e0 & Hev & Hr)|(ri & Hev & Hr)]])])];
      rewrite Hev in Hin |- *; in_log Hin.
    split; [done|]. by eexists [_; _], rx.
  - intros fs p r Hin.
    destruct (save_calls self data w)
      as [(e0 & Hev & Hr)|(p0 & [(e0 & Hev & Hr)
            |(s0 & [(e0 & rx & Hev & Hr)|[(e0 & Hev & Hr)|(ri & Hev & Hr)]])])];
      rewrite Hev in Hin |- *; in_log Hin.
    eexists [_; _], _, _, _, _. reflexivity.
Qed.

(** C3.  [_exists] answers [False] instead of raising when resolving the
    load path raises a [DatasetError] (the "no such version" error is
    one); when the path resolves, its answer is the filesystem's
    [exists] on the resolved path, asked once. *)
Theorem exists_false_when_unresolved self w :
  let resolve := _get_load_path E (_filepath self) (_version self) (_fs self) in
  (∀ e x, resolve (ext w) = (Raise e, x) → is_DatasetError e = true →
     (_exists self w).1 = Ok false
     ∧ since w (_exists self w).2 = [EvLoadPath (Raise e)])
  ∧ (∀ p x, resolve (ext w) = (Ok p, x) →
       let path := get_filepath_str E p (_protocol self) in
       (_exists self w).1 = (fs_exists E (_fs self) path x).1
       ∧ since w (_exists self w).2
         = [EvLoadPath (Ok p);
            EvExists (_fs self) path (fs_exists E (_fs self) path x).1]).
Proof.
  split.
  - intros e x Hres Hds. run_method @_exists. rewrite Hres; simpl.
    rewrite Hds; simpl. by read_log.
  - intros p x Hres. run_method @_exists. rewrite Hres; simpl.
    destruct (fs_exists E _ _ x) as [r x']; simpl. by read_log.
Qed.

(** C8.  Let [R] relate outside states that answer alike.  If resolving
    the load path and asking the filesystem for existence both leave the
    outside state in a related one, and related states give them equal
    answers, then a second [_exists] right after a first one returns
    what the first returned; the first call leaves the mapping objects
    as they were and the outside state related to the one before. *)
Theorem exists_twice_same_answer (R : relation (X E)) self w :
  let resolve := _get_load_path E (_filepath self) (_version self) (_fs self) in
  let ask := fs_exists E (_fs self) in
  Transitive R →
  (∀ x, R x (resolve x).2) →
  (∀ x y, R x y → (resolve x).1 = (resolve y).1) →
  (∀ p x, R x (ask p x).2) →
  (∀ p x y, R x y → (ask p x).1 = (ask p y).1) →
  (_exists self (_exists self w).2).1 = (_exists self w).1
  ∧ store (_exists self w).2 = store w
  ∧ R (ext w) (ext (_exists self w).2).
Proof.
  intros resolve ask HT Hr1 Hr2 Ha1 Ha2.
  assert (Hrun : ∀ w0,
    ∃ x', ext (_exists self w0).2 = x' ∧ store (_exists self w0).2 = store w0 ∧
      ((∃ e, resolve (ext w0) = (Raise e, x')
             ∧ (_exists self w0).1 = if is_DatasetError e then Ok false else Raise e)
       ∨ ∃ p x1, resolve (ext w0) = (Ok p, x1)
                 ∧ ask (get_filepath_str E p (_protocol self)) x1
                   = ((_exists self w0).1, x'))).
  { intros w0. run_method @_exists. fold resolve.
    destruct (resolve (ext w0)) as [[p|e] x1]; simpl.
    - fold ask. destruct (ask _ x1) as [r x2] eqn:Hask; simpl.
      eexists; split_and!; [done..|]. right. eauto.
    - destruct (is_DatasetError e) eqn:Hd; simpl.
      all: eexists; split_and!; [done..|]; left; exists e; by rewrite Hd. }
  destruct (Hrun w) as (x1 & Hx1 & Hst1 & Hcase1).
  destruct (Hrun (_exists self w).2) as (x2 & Hx2 & Hst2 & Hcase2).
  rewrite Hx1 in Hcase2 |- *.
  assert (HR : R (ext w) x1).
  { destruct Hcase1 as [(e & Hres & _)|(p & y & Hres & Hask)].
    - specialize (Hr1 (ext w)). by rewrite Hres in Hr1.
    - specialize (Hr1 (ext w)). rewrite Hres in Hr1.
      specialize (Ha1 (get_filepath_str E p (_protocol self)) y).
      rewrite Hask in Ha1. by etrans. }
  split_and!; [|done..].
  pose proof (Hr2 _ _ HR) as Hsame.
  destruct Hcase1 as [(e & Hres & ->)|(p & y & Hres & Hask)];
    destruct Hcase2 as [(e' & Hres' & ->)|(p' & y' & Hres' & Hask')];
    rewrite Hres, Hres' in Hsame; simpl in Hsame; simplify_eq; [done|].
  assert (HR' : R y y').
  { specialize (Ha1 (get_filepath_str E p' (_protocol self)) y).
    rewrite Hask in Ha1. simpl in Ha1.
    specialize (Hr1 (ext (_exists self w).2)). rewrite Hres' in Hr1. by etrans. }
  specialize (Ha2 (get_filepath_str E p' (_protocol self)) _ _ HR').
  by rewrite Hask, Hask' in Ha2.
Qed.

(** ** The constructor *)

(** Every [open] of a [load] carries the stored read options, every
    [open] of a [save] the stored write options. *)
Lemma open_kwargs_load self w :
  ∀ kw, kw ∈ open_kwargs (since w (load self w).2) → kw = _fs_open_args_load self.
Proof.
  intros kw.
  destruct (load_calls self w) as [(e & -> & _)|(p & [(e & -> & _)|(s & rd & rx & -> & _)])];
    simpl; intros Hin; by in_log Hin.
Qed.

Lemma open_kwargs_save self data w :
  ∀ kw, kw ∈ open_kwargs (since w (save self data w).2) → kw = _fs_open_args_save self.
Proof.
  intros kw.
  destruct (save_calls self data w)
    as [(e & -> & _)|(p & [(e & -> & _)|(s & [(e & rx & -> & _)|[(e & -> & _)|(ri & -> & _)]])])];
    simpl; intros Hin; by in_log Hin.
Qed.

(** The open options a successful construction stores. *)
Lemma init_stored_open_args filepath la sa ver cred fsa md w self w' :
  arg_ok (store w) fsa → arg_ok (store w) cred →
  __init__ E filepath la sa ver cred fsa md w = (Ok self, w') →
  _fs_open_args_load self
    = caller_open_args (store w) fsa "open_args_load" ∪ {[ "mode" := VStr "rb" ]}
  ∧ _fs_open_args_save self
    = caller_open_args (store w) fsa "open_args_save" ∪ {[ "mode" := VStr "wb" ]}.
Proof.
  intros Hfs Hcr Hinit.
  destruct (init_run filepath la sa ver cred fsa md w Hfs Hcr)
    as (st' & _ & _ & Hres & _).
  rewrite Hinit in Hres; simpl in Hres. symmetry in Hres.
  by apply init_outcome_ok in Hres as (Hl & Hs & _).
Qed.

(** C1.  After a successful construction the stored read options are
    the default [{mode: rb}] with the caller's [open_args_load] sub-map
    merged over it, the stored write options the default [{mode: wb}]
    with the caller's [open_args_save] sub-map merged over it; they are
    what every [open] of [load] and of [save] is given, so a [mode] in
    the caller's sub-map is the mode used. *)
Theorem open_args_defaults_then_caller filepath la sa ver cred fsa md w self w' :
  arg_ok (store w) fsa → arg_ok (store w) cred →
  __init__ E filepath la sa ver cred fsa md w = (Ok self, w') →
  let caller_load := caller_open_args (store w) fsa "open_args_load" in
  let caller_save := caller_open_args (store w) fsa "open_args_save" in
  _fs_open_args_load self = caller_load ∪ {[ "mode" := VStr "rb" ]}
  ∧ _fs_open_args_save self = caller_save ∪ {[ "mode" := VStr "wb" ]}
  ∧ (∀ k v, caller_load !! k = Some v → _fs_open_args_load self !! k = Some v)
  ∧ (∀ k v, caller_save !! k = Some v → _fs_open_args_save self !! k = Some v)
  ∧ (∀ w1 kw, kw ∈ open_kwargs (since w1 (load self w1).2) →
       kw = _fs_open_args_load self
       ∧ ∀ m, caller_load !! "mode" = Some m → kw !! "mode" = Some m)
  ∧ (∀ w1 data kw, kw ∈ open_kwargs (since w1 (save self data w1).2) →
       kw = _fs_open_args_save self
       ∧ ∀ m, caller_save !! "mode" = Some m → kw !! "mode" = Some m).
Proof.
  intros Hfs Hcr Hinit.
  destruct (init_stored_open_args filepath la sa ver cred fsa md w self w'
              Hfs Hcr Hinit) as (Hl & Hs).
  intros caller_load caller_save.
  assert (Hkl : ∀ k v, caller_load !! k = Some v → _fs_open_args_load self !! k = Some v).
  { intros k v Hk. rewrite Hl. by apply lookup_union_Some_l. }
  assert (Hks : ∀ k v, caller_save !! k = Some v → _fs_open_args_save self !! k = Some v).
  { intros k v Hk. rewrite Hs. by apply lookup_union_Some_l. }
  split_and!; try done.
  - intros w1 kw ->%open_kwargs_load. eauto.
  - intros w1 data kw ->%open_kwargs_save. eauto.
Qed.

(** C7.  An adapter constructed without [fs_args] opens with mode [rb]
    in every [load] and with mode [wb] in every [save]: the options of
    each [open] are exactly [{mode: rb}], respectively [{mode: wb}], and
    an [open] is made whenever the path resolves. *)
Theorem default_open_modes filepath la sa ver cred md w self w' :
  arg_ok (store w) cred →
  __init__ E filepath la sa ver cred None md w = (Ok self, w') →
  (∀ w1 kw, kw ∈ open_kwargs (since w1 (load self w1).2) →
     kw = {[ "mode" := VStr "rb" ]} ∧ kw !! "mode" = Some (VStr "rb"))
  ∧ (∀ w1 data kw, kw ∈ open_kwargs (since w1 (save self data w1).2) →
       kw = {[ "mode" := VStr "wb" ]} ∧ kw !! "mode" = Some (VStr "wb"))
  ∧ (∀ w1 p, EvLoadPath (Ok p) ∈ since w1 (load self w1).2 →
       open_kwargs (since w1 (load self w1).2) = [{[ "mode" := VStr "rb" ]}])
  ∧ (∀ w1 data p, EvSavePath (Ok p) ∈ since w1 (save self data w1).2 →
       open_kwargs (since w1 (save self data w1).2) = [{[ "mode" := VStr "wb" ]}]).
Proof.
  intros Hcr Hinit.
  destruct (init_stored_open_args filepath la sa ver cred None md w self w'
              I Hcr Hinit) as (Hl & Hs).
  unfold caller_open_args in Hl, Hs; simpl in Hl, Hs.
  rewrite lookup_empty, (left_id_L ∅ (∪)) in Hl, Hs.
  split_and!.
  - intros w1 kw ->%open_kwargs_load. by rewrite Hl, lookup_singleton_eq.
  - intros w1 data kw ->%open_kwargs_save. by rewrite Hs, lookup_singleton_eq.
  - intros w1 p Hin.
    destruct (load_calls self w1)
      as [(e & Hev & _)|(p0 & [(e & Hev & _)|(s & rd & rx & Hev & _)])];
      rewrite Hev in Hin |- *; in_log Hin; simpl; by rewrite Hl.
  - intros w1 data p Hin.
    destruct (save_calls self data w1)
      as [(e & Hev & _)|(p0 & [(e & Hev & _)
            |(s & [(e & rx & Hev & _)|[(e & Hev & _)|(ri & Hev & _)]])])];
      rewrite Hev in Hin |- *; in_log Hin; simpl; by rewrite Hs.
Qed.

Lemma kwargs2_Ok (a b kw : gmap string pyval) :
  kwargs2 a b = Ok kw → a ##ₘ b ∧ kw = a ∪ b.
Proof. unfold kwargs2. case_bool_decide; by intros [= <-]. Qed.

Lemma setdefault_lookup k v (d : gmap string pyval) k' :
  setdefault k v d !! k'
  = if bool_decide (k' = k) then Some (default v (d !! k)) else d !! k'.
Proof.
  unfold setdefault. case_bool_decide as Hk; [subst k'|].
  - destruct (d !! k) eqn:Hd; simpl; [done|]. by rewrite lookup_insert_eq.
  - destruct (d !! k) eqn:Hd; simpl; [done|]. by rewrite lookup_insert_ne.
Qed.

(** The keyword arguments of the filesystem constructor call. *)
Lemma init_filesystem_call filepath la sa ver cred fsa md w protocol kw rf :
  arg_ok (store w) fsa → arg_ok (store w) cred →
  EvFilesystem protocol kw rf
    ∈ since w (__init__ E filepath la sa ver cred fsa md w).2 →
  let rest := delete "open_args_save"
                (delete "open_args_load" (caller_dict (store w) fsa)) in
  let passed := if bool_decide (protocol = "file")
                then setdefault "auto_mkdir" (VBool true) rest else rest in
  (∃ path, get_protocol_and_path E filepath ver = Ok (protocol, path))
  ∧ caller_dict (store w) cred ##ₘ passed
  ∧ kw = caller_dict (store w) cred ∪ passed.
Proof.
  intros Hfs Hcr Hin.
  destruct (init_run filepath la sa ver cred fsa md w Hfs Hcr)
    as (st' & _ & _ & _ & _ & Hev).
  rewrite Hev in Hin. apply init_outcome_call in Hin as [Hp Hkw].
  apply kwargs2_Ok in Hkw as [Hd Hk]. by split_and!.
Qed.

(** C5.  In the call that constructs the filesystem, when the protocol
    derived from the filepath is [file] the option [auto_mkdir] is the
    caller's [fs_args] value for it if there is one and [True]
    otherwise; for any other protocol it is only what the caller
    supplied, if anything. *)
Theorem auto_mkdir_defaults_to_true_for_file
    filepath la sa ver cred fsa md w protocol kw rf :
  arg_ok (store w) fsa → arg_ok (store w) cred →
  EvFilesystem protocol kw rf
    ∈ since w (__init__ E filepath la sa ver cred fsa md w).2 →
  (∃ path, get_protocol_and_path E filepath ver = Ok (protocol, path))
  ∧ (protocol = "file" →
     kw !! "auto_mkdir"
     = Some (default (VBool true) (caller_dict (store w) fsa !! "auto_mkdir")))
  ∧ (protocol ≠ "file" →
     kw !! "auto_mkdir"
     = (caller_dict (store w) cred ∪ caller_dict (store w) fsa) !! "auto_mkdir").
Proof.
  intros Hfs Hcr Hin.
  destruct (init_filesystem_call _ _ _ _ _ _ _ _ _ _ _ Hfs Hcr Hin)
    as (Hp & Hdisj & ->).
  split; [done|]. split; intros Hproto.
  - rewrite bool_decide_eq_true_2 in Hdisj |- * by done.
    apply lookup_union_Some_r; [done|].
    rewrite setdefault_lookup, bool_decide_eq_true_2 by done.
    by rewrite !lookup_delete_ne.
  - rewrite bool_decide_eq_false_2 by done.
    by rewrite !lookup_union, !lookup_delete_ne.
Qed.

(** C6, as amended.  The filesystem constructor is given the
    credentials together with what is left of [fs_args] once
    [open_args_load] and [open_args_save] are taken out, plus
    [auto_mkdir = True] when the protocol is [file] and [fs_args] has no
    [auto_mkdir]; no entry of [fs_args] under a reserved key reaches it,
    every other entry of [fs_args] does, and it is given nothing
    else. *)
Theorem filesystem_gets_remaining_fs_args
    filepath la sa ver cred fsa md w protocol kw rf :
  arg_ok (store w) fsa → arg_ok (store w) cred →
  EvFilesystem protocol kw rf
    ∈ since w (__init__ E filepath la sa ver cred fsa md w).2 →
  let d_fs := caller_dict (store w) fsa in
  let d_cr := caller_dict (store w) cred in
  let rest := delete "open_args_save" (delete "open_args_load" d_fs) in
  kw = d_cr ∪ (if bool_decide (protocol = "file")
               then setdefault "auto_mkdir" (VBool true) rest else rest)
  ∧ kw !! "open_args_load" = d_cr !! "open_args_load"
  ∧ kw !! "open_args_save" = d_cr !! "open_args_save"
  ∧ (∀ k v, k ≠ "open_args_load" → k ≠ "open_args_save" →
       d_fs !! k = Some v → kw !! k = Some v)
  ∧ (∀ k, is_Some (kw !! k) →
       is_Some (d_cr !! k)
       ∨ (is_Some (d_fs !! k) ∧ k ≠ "open_args_load" ∧ k ≠ "open_args_save")
       ∨ (k = "auto_mkdir" ∧ protocol = "file" ∧ d_fs !! "auto_mkdir" = None)).
Proof.
  intros Hfs Hcr Hin d_fs d_cr rest.
  destruct (init_filesystem_call _ _ _ _ _ _ _ _ _ _ _ Hfs Hcr Hin)
    as (Hp & Hdisj & Hkw).
  fold d_fs d_cr rest in Hdisj, Hkw.
  set (passed := if bool_decide (protocol = "file")
                 then setdefault "auto_mkdir" (VBool true) rest else rest) in *.
  clear Hp Hin.
  assert (Hrest : ∀ k, k ≠ "open_args_load" → k ≠ "open_args_save" →
                       rest !! k = d_fs !! k).
  { intros k H1 H2. subst rest. by rewrite !lookup_delete_ne. }
  assert (Hres_l : rest !! "open_args_load" = None).
  { subst rest. by rewrite lookup_delete_ne, lookup_delete_eq. }
  assert (Hres_s : rest !! "open_args_save" = None).
  { subst rest. by rewrite lookup_delete_eq. }
  assert (Hpassed : ∀ k, k ≠ "auto_mkdir" → passed !! k = rest !! k).
  { intros k Hk. subst passed. case_bool_decide; [|done].
    by rewrite setdefault_lookup, bool_decide_eq_false_2. }
  assert (Hauto : passed !! "auto_mkdir"
            = if bool_decide (protocol = "file")
              then Some (default (VBool true) (d_fs !! "auto_mkdir"))
              else d_fs !! "auto_mkdir").
  { subst passed. case_bool_decide.
    - by rewrite setdefault_lookup, bool_decide_eq_true_2, Hrest.
    - by rewrite Hrest. }
  split_and!; [done|..].
  - by rewrite Hkw, lookup_union_l; [|rewrite Hpassed].
  - by rewrite Hkw, lookup_union_l; [|rewrite Hpassed].
  - intros k v Hk1 Hk2 Hd. rewrite Hkw. apply lookup_union_Some_r; [done|].
    destruct (decide (k = "auto_mkdir")) as [->|Hk].
    + rewrite Hauto, Hd. by case_bool_decide.
    + by rewrite Hpassed, Hrest.
  - intros k [v Hk]. rewrite Hkw in Hk.
    apply lookup_union_Some in Hk as [Hk|Hk]; [eauto| |done].
    right. destruct (decide (k = "auto_mkdir")) as [->|Hne].
    + destruct (d_fs !! "auto_mkdir") eqn:Hd; [left; eauto|right].
      rewrite Hauto in Hk. case_bool_decide; [done|congruence].
    + left. rewrite Hpassed in Hk by done.
      destruct (decide (k = "open_args_load")) as [->|H1]; [congruence|].
      destruct (decide (k = "open_args_save")) as [->|H2]; [congruence|].
      rewrite Hrest in Hk by done. eauto.
Qed.

(** C9.  The constructor leaves every mapping object that existed
    before the call as it was, whether it succeeds or raises; so the
    caller's [fs_args] and [credentials] still hold what they held, the
    reserved keys included, although the constructor was not given
    them. *)
Theorem init_leaves_caller_mappings_unchanged filepath la sa ver cred fsa md w :
  arg_ok (store w) fsa → arg_ok (store w) cred →
  let w' := (__init__ E filepath la sa ver cred fsa md w).2 in
  store w ⊆ store w'
  ∧ (∀ l, fsa = Some l → store w' !! l = store w !! l)
  ∧ (∀ l, cred = Some l → store w' !! l = store w !! l)
  ∧ caller_dict (store w') fsa = caller_dict (store w) fsa
  ∧ caller_dict (store w') cred = caller_dict (store w) cred.
Proof.
  intros Hfs Hcr w'.
  destruct (init_run filepath la sa ver cred fsa md w Hfs Hcr)
    as (st' & Hsub & Hst & _).
  fold w' in Hst. rewrite Hst.
  assert (Hsame : ∀ o l, arg_ok (store w) o → o = Some l → st' !! l = store w !! l).
  { intros o l Hok ->. destruct Hok as [d Hd]. rewrite Hd.
    by eapply lookup_weaken. }
  split_and!; [done|by eauto..| |].
  - by apply caller_dict_weaken.
  - by apply caller_dict_weaken.
Qed.

(** ** Further properties of the methods *)

(** The calls of an [_exists], outcome by outcome. *)
Lemma exists_calls self w :
  let fs := _fs self in
  let evs := since w (_exists self w).2 in
  (∃ e, evs = [EvLoadPath (Raise e)]
        ∧ (_exists self w).1 = if is_DatasetError e then Ok false else Raise e)
  ∨ ∃ p r, evs = [EvLoadPath (Ok p);
                  EvExists fs (get_filepath_str E p (_protocol self)) r]
           ∧ (_exists self w).1 = r.
Proof.
  run_method @_exists.
  destruct (_get_load_path E _ _ _ (ext w)) as [[p|e] x]; simpl.
  - destruct (fs_exists E _ _ x) as [r x']; simpl. read_log.
    right. by exists p, r.
  - destruct (is_DatasetError e) eqn:Hd; simpl; read_log;
      left; exists e; by rewrite Hd.
Qed.

(** The calls of a [_release], outcome by outcome. *)
Lemma release_calls self w :
  let evs := since w (_release self w).2 in
  (∃ e, evs = [EvRelease (Raise e)] ∧ (_release self w).1 = Raise e)
  ∨ ∃ r, evs = [EvRelease (Ok ());
                EvInvalidate (_fs self)
                  (get_filepath_str E (_filepath self) (_protocol self)) r]
         ∧ (_release self w).1 = r.
Proof.
  run_method @_release. repeat oracle; read_log.
  all: repeat match goal with u : () |- _ => destruct u end.
  all: eauto.
Qed.

(** X1.  [_release] first runs the inherited release; if that raises,
    [_release] raises the same error and invalidates nothing; otherwise
    it invalidates the cached metadata of the logical path, of that path
    only, and returns what the invalidation returns. *)
Theorem release_invalidates_after_base_release self w :
  let base := super_release E (_filepath self) (_version self) (_fs self) in
  let path := get_filepath_str E (_filepath self) (_protocol self) in
  (∀ e x, base (ext w) = (Raise e, x) →
     (_release self w).1 = Raise e
     ∧ since w (_release self w).2 = [EvRelease (Raise e)])
  ∧ (∀ x, base (ext w) = (Ok (), x) →
       (_release self w).1 = (fs_invalidate_cache E (_fs self) path x).1
       ∧ since w (_release self w).2
         = [EvRelease (Ok ());
            EvInvalidate (_fs self) path (fs_invalidate_cache E (_fs self) path x).1]
       ∧ invalidated (since w (_release self w).2) = [path]).
Proof.
  split.
  - intros e x Hb. run_method @_release. rewrite Hb; simpl. by read_log.
  - intros x Hb. run_method @_release. rewrite Hb; simpl.
    destruct (fs_invalidate_cache E _ _ x) as [r x']; simpl. by read_log.
Qed.

(** X2.  When resolving the load path raises, [load] raises that very
    error without opening anything, a [DatasetError] included: the case
    in which [_exists] answers [False] is a case in which [load]
    raises. *)
Theorem load_raises_what_exists_swallows self w e x :
  _get_load_path E (_filepath self) (_version self) (_fs self) (ext w) = (Raise e, x) →
  (load self w).1 = Raise e
  ∧ since w (load self w).2 = [EvLoadPath (Raise e)]
  ∧ (is_DatasetError e = true → (_exists self w).1 = Ok false).
Proof.
  intros Hres. split_and!.
  - run_method @load. by rewrite Hres.
  - run_method @load. rewrite Hres; simpl. by read_log.
  - intros Hd. run_method @_exists. rewrite Hres; simpl. by rewrite Hd.
Qed.

(** X3.  A [load] that returns a value made exactly four calls: it
    resolved the load path, opened it with the stored read options,
    decoded the stream with the stored load arguments, which gave the
    value returned, and exited the stream without error. *)
Theorem load_returns_decoded self w v :
  (load self w).1 = Ok v →
  ∃ p s,
    since w (load self w).2
    = [EvLoadPath (Ok p);
       EvOpen (_fs self) (get_filepath_str E p (_protocol self))
         (_fs_open_args_load self) (Ok s);
       EvDecode s (_load_args self) (Ok v);
       EvExit s (Ok ())].
Proof.
  intros Hok.
  destruct (load_calls self w)
    as [(e & Hev & Hr)|(p & [(e & Hev & Hr)|(s & rd & rx & Hev & Hr)])];
    rewrite Hr in Hok; try discriminate.
  destruct rx as [[]|e]; [|discriminate]. subst rd. eauto.
Qed.

(** X4.  Only [save] and [_release] invalidate cached metadata: [load]
    and [_exists] never do, and [_exists] and [_release] never open a
    stream. *)
Theorem load_and_exists_never_invalidate self w :
  invalidated (since w (load self w).2) = []
  ∧ invalidated (since w (_exists self w).2) = []
  ∧ opened (since w (_exists self w).2) = []
  ∧ opened (since w (_release self w).2) = [].
Proof.
  split_and!.
  - by destruct (load_calls self w)
      as [(e & -> & _)|(p & [(e & -> & _)|(s & rd & rx & -> & _)])].
  - by destruct (exists_calls self w) as [(e & -> & _)|(p & r & -> & _)].
  - by destruct (exists_calls self w) as [(e & -> & _)|(p & r & -> & _)].
  - by destruct (release_calls self w) as [(e & -> & _)|(r & -> & _)].
Qed.

(** X5.  [_exists] recovers from a [DatasetError] only: any other error
    of the path resolution is raised again, without asking the
    filesystem, and an error of the filesystem's [exists] is raised
    too. *)
Theorem exists_raises_other_errors self w :
  let resolve := _get_load_path E (_filepath self) (_version self) (_fs self) in
  (∀ e x, resolve (ext w) = (Raise e, x) → is_DatasetError e = false →
     (_exists self w).1 = Raise e
     ∧ since w (_exists self w).2 = [EvLoadPath (Raise e)])
  ∧ (∀ p x e x',
       resolve (ext w) = (Ok p, x) →
       fs_exists E (_fs self) (get_filepath_str E p (_protocol self)) x = (Raise e, x') →
       (_exists self w).1 = Raise e).
Proof.
  split.
  - intros e x Hres Hd. run_method @_exists. rewrite Hres; simpl.
    rewrite Hd; simpl. by read_log.
  - intros p x e x' Hres Hex. run_method @_exists. rewrite Hres; simpl.
    by rewrite Hex.
Qed.

(** X6.  A [save] that cannot resolve its path, or cannot open it,
    raises that error at once: nothing is encoded, no stream is exited
    and no cache is invalidated. *)
Theorem save_fails_early_without_stream self data w :
  let resolve := _get_save_path E (_filepath self) (_version self) (_fs self) in
  (∀ e x, resolve (ext w) = (Raise e, x) →
     (save self data w).1 = Raise e
     ∧ since w (save self data w).2 = [EvSavePath (Raise e)])
  ∧ (∀ p x e x',
       resolve (ext w) = (Ok p, x) →
       fs_open E (_fs self) (get_filepath_str E p (_protocol self))
         (_fs_open_args_save self) x = (Raise e, x') →
       (save self data w).1 = Raise e
       ∧ since w (save self data w).2
         = [EvSavePath (Ok p);
            EvOpen (_fs self) (get_filepath_str E p (_protocol self))
              (_fs_open_args_save self) (Raise e)]).
Proof.
  split.
  - intros e x Hres. run_method @save. rewrite Hres; simpl. by read_log.
  - intros p x e x' Hres Hop. run_method @save. rewrite Hres; simpl.
    rewrite Hop; simpl. by read_log.
Qed.

(** X7.  When closing the stream raises, [save] raises the error of the
    close, whether or not the encode had succeeded, and the cache is not
    invalidated although the stream was written to. *)
Theorem save_close_failure_skips_invalidation self data w s e :
  EvExit s (Raise e) ∈ since w (save self data w).2 →
  (save self data w).1 = Raise e
  ∧ invalidated (since w (save self data w).2) = []
  ∧ ∃ r, EvEncode data.1 data.2 s (_save_args self) r ∈ since w (save self data w).2.
Proof.
  intros Hin.
  destruct (save_calls self data w)
    as [(e0 & Hev & Hr)|(p & [(e0 & Hev & Hr)
          |(s0 & [(e0 & rx & Hev & Hr)|[(e0 & Hev & Hr)|(ri & Hev & Hr)]])])];
    rewrite Hev in Hin |- *; in_log Hin.
  - rewrite Hr. split_and!; [done..|]. eexists. rewrite !elem_of_cons. eauto.
  - rewrite Hr. split_and!; [done..|]. eexists. rewrite !elem_of_cons. eauto.
Qed.

(** ** Further properties of the constructor *)

Lemma read_arg_live st st' o :
  arg_ok st o → st ⊆ st' → read_arg st' o = Ok (caller_dict st o).
Proof.
  destruct o as [l|]; simpl; [|done].
  intros [d Hd] Hsub. by rewrite (lookup_weaken _ _ _ _ Hd Hsub), Hd.
Qed.

(** The constructor when all four mapping arguments are live. *)
Lemma init_run_live filepath la sa ver cred fsa md w :
  arg_ok (store w) fsa → arg_ok (store w) cred →
  arg_ok (store w) la → arg_ok (store w) sa →
  let o := init_outcome E filepath ver md
             (caller_dict (store w) fsa) (caller_dict (store w) cred)
             (Ok (caller_dict (store w) la)) (Ok (caller_dict (store w) sa)) (ext w) in
  (__init__ E filepath la sa ver cred fsa md w).1 = o.1.1
  ∧ ext (__init__ E filepath la sa ver cred fsa md w).2 = o.1.2
  ∧ since w (__init__ E filepath la sa ver cred fsa md w).2 = o.2.
Proof.
  intros Hfs Hcr Hla Hsa.
  destruct (init_run filepath la sa ver cred fsa md w Hfs Hcr)
    as (st' & Hsub & _ & Hres).
  by rewrite (read_arg_live _ _ la Hla Hsub), (read_arg_live _ _ sa Hsa Hsub) in Hres.
Qed.

Lemma mapping_or_false_dec o : mapping_or_false o ∨ ¬ mapping_or_false o.
Proof.
  destruct o as [v|]; simpl; [|by left].
  destruct (truthy v) eqn:Ht; [|by left; left].
  destruct v; try (right; intros [?|[? ?]]; congruence). left; right; eauto.
Qed.

(** The merge of open options succeeds on a mapping or a false value and
    is a [TypeError] on anything else. *)
Lemma merge_open_args_cases (dflt : gmap string pyval) (o : option pyval) :
  let r := dict_display (VDict dflt) (py_or (default (VDict ∅) o) (VDict ∅)) in
  (mapping_or_false o
   ∧ r = Ok (match o with Some (VDict d) => d | _ => ∅ end ∪ dflt))
  ∨ (¬ mapping_or_false o ∧ r = Raise (TypeError "object is not a mapping")).
Proof.
  simpl. destruct (mapping_or_false_dec o) as [Hm|Hm]; [left|right]; split; try done.
  - destruct (dict_display _ _) as [m|e] eqn:Hd.
    + by rewrite (merge_open_args _ _ _ Hd).
    + exfalso. unfold dict_display, py_or in Hd.
      destruct o as [v|]; simpl in *.
      * destruct Hm as [Hf|[d ->]].
        -- by rewrite Hf in Hd.
        -- simpl in Hd. by case_bool_decide.
      * by case_bool_decide.
  - destruct o as [v|]; simpl in *; [|tauto].
    unfold dict_display, py_or.
    destruct (truthy v) eqn:Ht; [|tauto].
    destruct v; try done. exfalso. apply Hm. right; eauto.
Qed.

(** Every outcome of the constructor, in the order in which it can
    fail. *)
Lemma init_outcome_cases filepath ver md (d_fs d_cr la sa : gmap string pyval) x :
  let o := init_outcome E filepath ver md d_fs d_cr (Ok la) (Ok sa) x in
  (∃ e, get_protocol_and_path E filepath ver = Raise e ∧ o = (Raise e, x, []))
  ∨ ∃ protocol path,
      get_protocol_and_path E filepath ver = Ok (protocol, path)
      ∧ let fa := filesystem_args protocol d_fs in
        (¬ d_cr ##ₘ fa
         ∧ o = (Raise (TypeError "got multiple values for keyword argument"), x, []))
        ∨ (d_cr ##ₘ fa
           ∧ ∃ rf x', fsspec_filesystem E protocol (d_cr ∪ fa) x = (rf, x')
               ∧ o.1.2 = x'
               ∧ o.2 = [EvFilesystem protocol (d_cr ∪ fa) rf]
               ∧ match rf with
                 | Raise e => o.1.1 = Raise e
                 | Ok fs =>
                     ((¬ mapping_or_false (d_fs !! "open_args_load")
                       ∨ ¬ mapping_or_false (d_fs !! "open_args_save"))
                      ∧ o.1.1 = Raise (TypeError "object is not a mapping"))
                     ∨ (mapping_or_false (d_fs !! "open_args_load")
                        ∧ mapping_or_false (d_fs !! "open_args_save")
                        ∧ o.1.1 = Ok {|
                            _protocol := protocol;
                            _fs := fs;
                            metadata := md;
                            _filepath := PurePosixPath E path;
                            _version := ver;
                            _load_args := la;
                            _save_args := sa;
                            _fs_open_args_load :=
                              match d_fs !! "open_args_load" with
                              | Some (VDict d) => d | _ => ∅ end
                              ∪ {[ "mode" := VStr "rb" ]};
                            _fs_open_args_save :=
                              match d_fs !! "open_args_save" with
                              | Some (VDict d) => d | _ => ∅ end
                              ∪ {[ "mode" := VStr "wb" ]} |})
                 end).
Proof.
  unfold init_outcome.
  destruct (get_protocol_and_path E filepath ver) as [[protocol path]|e]; simpl;
    [right|left; eauto].
  exists protocol, path. split; [done|]. fold (filesystem_args protocol d_fs).
  unfold kwargs2. case_bool_decide as Hdisj; simpl; [right|left; done].
  split; [done|].
  destruct (fsspec_filesystem E protocol _ x) as [[fs|e] x'] eqn:Hctor; simpl.
  2:{ by exists (Raise e), x'. }
  exists (Ok fs), x'. split_and!; [done..|].
  rewrite default_open_args_load, default_open_args_save. unfold dict_get.
  destruct (merge_open_args_cases {[ "mode" := VStr "rb" ]} (d_fs !! "open_args_load"))
    as [[Hl ->]|[Hl ->]]; simpl.
  2:{ left. split; [by left|]. done. }
  rewrite lookup_delete_ne by done.
  destruct (merge_open_args_cases {[ "mode" := VStr "wb" ]} (d_fs !! "open_args_save"))
    as [[Hs ->]|[Hs ->]]; simpl.
  2:{ left. split; [by right|]. done. }
  right. split_and!; [done..|].
  unfold DEFAULT_LOAD_ARGS, DEFAULT_SAVE_ARGS. by rewrite !(right_id_L ∅ (∪)).
Qed.

(** Every outcome of [__init__] on live arguments. *)
Lemma init_cases filepath la sa ver cred fsa md w :
  arg_ok (store w) fsa → arg_ok (store w) cred →
  arg_ok (store w) la → arg_ok (store w) sa →
  let r := __init__ E filepath la sa ver cred fsa md w in
  let d_fs := caller_dict (store w) fsa in
  let d_cr := caller_dict (store w) cred in
  (∃ e, get_protocol_and_path E filepath ver = Raise e
        ∧ r.1 = Raise e ∧ ext r.2 = ext w ∧ since w r.2 = [])
  ∨ ∃ protocol path,
      get_protocol_and_path E filepath ver = Ok (protocol, path)
      ∧ let fa := filesystem_args protocol d_fs in
        (¬ d_cr ##ₘ fa
         ∧ r.1 = Raise (TypeError "got multiple values for keyword argument")
         ∧ ext r.2 = ext w ∧ since w r.2 = [])
        ∨ (d_cr ##ₘ fa
           ∧ ∃ rf, fsspec_filesystem E protocol (d_cr ∪ fa) (ext w) = (rf, ext r.2)
               ∧ since w r.2 = [EvFilesystem protocol (d_cr ∪ fa) rf]
               ∧ match rf with
                 | Raise e => r.1 = Raise e
                 | Ok fs =>
                     ((¬ mapping_or_false (d_fs !! "open_args_load")
                       ∨ ¬ mapping_or_false (d_fs !! "open_args_save"))
                      ∧ r.1 = Raise (TypeError "object is not a mapping"))
                     ∨ (mapping_or_false (d_fs !! "open_args_load")
                        ∧ mapping_or_false (d_fs !! "open_args_save")
                        ∧ r.1 = Ok {|
                            _protocol := protocol;
                            _fs := fs;
                            metadata := md;
                            _filepath := PurePosixPath E path;
                            _version := ver;
                            _load_args := caller_dict (store w) la;
                            _save_args := caller_dict (store w) sa;
                            _fs_open_args_load :=
                              caller_open_args (store w) fsa "open_args_load"
                              ∪ {[ "mode" := VStr "rb" ]};
                            _fs_open_args_save :=
                              caller_open_args (store w) fsa "open_args_save"
                              ∪ {[ "mode" := VStr "wb" ]} |})
                 end).
Proof.
  intros Hfs Hcr Hla Hsa r d_fs d_cr.
  destruct (init_run_live filepath la sa ver cred fsa md w Hfs Hcr Hla Hsa)
    as (Hres & Hext & Hev).
  cbv zeta in Hres, Hext, Hev. fold r d_fs d_cr in Hres, Hext, Hev.
  rewrite Hres, Hext, Hev. clearbody r. clear Hres Hext Hev.
  destruct (init_outcome_cases filepath ver md d_fs d_cr
              (caller_dict (store w) la) (caller_dict (store w) sa) (ext w))
    as [(e & Hp & ->)|(protocol & path & Hp & [(Hd & ->)|(Hd & rf & x' & Hc & Hx & Hl & Hr)])];
    [left; eauto|right; exists protocol, path; split; [done|]..].
  - by left.
  - right. split; [done|]. exists rf. by rewrite Hx.
Qed.

(** X8.  An error of [get_protocol_and_path] is raised by the
    constructor before any filesystem is constructed, and an error of
    the filesystem constructor is raised by it unchanged. *)
Theorem init_raises_collaborator_errors filepath la sa ver cred fsa md w :
  arg_ok (store w) fsa → arg_ok (store w) cred →
  arg_ok (store w) la → arg_ok (store w) sa →
  let r := __init__ E filepath la sa ver cred fsa md w in
  (∀ e, get_protocol_and_path E filepath ver = Raise e →
     r.1 = Raise e ∧ since w r.2 = [] ∧ ext r.2 = ext w)
  ∧ (∀ protocol kw e, EvFilesystem protocol kw (Raise e) ∈ since w r.2 →
       r.1 = Raise e).
Proof.
  intros Hfs Hcr Hla Hsa r.
  destruct (init_cases filepath la sa ver cred fsa md w Hfs Hcr Hla Hsa)
    as [(e0 & Hp & Hr & Hx & Hl)
       |(p0 & path & Hp & [(Hd & Hr & Hx & Hl)|(Hd & rf & Hc & Hl & Hr)])];
    fold r in Hr, Hl; rewrite Hl.
  - split; [|intros ? ? ? Hin; by in_log Hin].
    intros e He. fold r in Hx. rewrite Hp in He. by simplify_eq.
  - split; [congruence|]. intros ? ? ? Hin. by in_log Hin.
  - split; [congruence|]. intros ? ? ? Hin. by in_log Hin.
Qed.

(** X9.  When a key of the credentials is also a key of what is left of
    [fs_args], the constructor raises a [TypeError] and constructs no
    filesystem.  For the local protocol an [auto_mkdir] among the
    credentials always clashes, since [auto_mkdir] is then always among
    the filesystem arguments. *)
Theorem init_rejects_repeated_keyword
    filepath la sa ver cred fsa md w protocol path :
  arg_ok (store w) fsa → arg_ok (store w) cred →
  arg_ok (store w) la → arg_ok (store w) sa →
  get_protocol_and_path E filepath ver = Ok (protocol, path) →
  (∃ k, is_Some (caller_dict (store w) cred !! k)
        ∧ is_Some (filesystem_args protocol (caller_dict (store w) fsa) !! k))
  ∨ (protocol = "file" ∧ is_Some (caller_dict (store w) cred !! "auto_mkdir")) →
  let r := __init__ E filepath la sa ver cred fsa md w in
  r.1 = Raise (TypeError "got multiple values for keyword argument")
  ∧ since w r.2 = []
  ∧ ext r.2 = ext w.
Proof.
  intros Hfs Hcr Hla Hsa Hp Hclash r.
  assert (Hnd : ¬ caller_dict (store w) cred
                  ##ₘ filesystem_args protocol (caller_dict (store w) fsa)).
  { intros Hd.
    assert (∃ k, is_Some (caller_dict (store w) cred !! k)
                 ∧ is_Some (filesystem_args protocol (caller_dict (store w) fsa) !! k))
      as (k & [v1 H1] & [v2 H2]).
    { destruct Hclash as [?|[-> Hk]]; [done|]. exists "auto_mkdir". split; [done|].
      unfold filesystem_args. rewrite bool_decide_eq_true_2 by done.
      rewrite setdefault_lookup, bool_decide_eq_true_2 by done. eauto. }
    by eapply map_disjoint_spec. }
  destruct (init_cases filepath la sa ver cred fsa md w Hfs Hcr Hla Hsa)
    as [(e0 & Hp' & _)|(p0 & path' & Hp' & Hcase)]; [congruence|].
  rewrite Hp in Hp'. simplify_eq.
  by destruct Hcase as [(_ & Hr & Hx & Hl)|(Hd & _)].
Qed.

(** X10.  A true value that is not a mapping under [open_args_load] or
    [open_args_save] makes the constructor fail, and it fails late: if
    the filesystem could be constructed it has been constructed when the
    [TypeError] is raised. *)
Theorem init_rejects_non_mapping_open_args filepath la sa ver cred fsa md w :
  arg_ok (store w) fsa → arg_ok (store w) cred →
  arg_ok (store w) la → arg_ok (store w) sa →
  ¬ mapping_or_false (caller_dict (store w) fsa !! "open_args_load")
  ∨ ¬ mapping_or_false (caller_dict (store w) fsa !! "open_args_save") →
  let r := __init__ E filepath la sa ver cred fsa md w in
  (∀ self, r.1 ≠ Ok self)
  ∧ (∀ protocol kw fs, EvFilesystem protocol kw (Ok fs) ∈ since w r.2 →
       r.1 = Raise (TypeError "object is not a mapping")).
Proof.
  intros Hfs Hcr Hla Hsa Hbad r.
  destruct (init_cases filepath la sa ver cred fsa md w Hfs Hcr Hla Hsa)
    as [(e0 & Hp & Hr & Hx & Hl)
       |(p0 & path & Hp & [(Hd & Hr & Hx & Hl)|(Hd & rf & Hc & Hl & Hr)])];
    fold r in Hr, Hl; rewrite Hl.
  - split; [congruence|]. intros ? ? ? Hin. by in_log Hin.
  - split; [congruence|]. intros ? ? ? Hin. by in_log Hin.
  - destruct rf as [fs|e].
    + destruct Hr as [[_ Hr]|(H1 & H2 & _)]; [|tauto].
      split; [congruence|]. by intros.
    + split; [congruence|]. intros ? ? ? Hin. by in_log Hin.
Qed.

(** X11.  The constructor succeeds exactly when the protocol can be
    derived from the filepath, no key of the credentials is a key of
    what is left of [fs_args], the filesystem can be constructed from
    both, and the values under the two reserved keys are mappings or
    false. *)
Theorem init_succeeds_iff filepath la sa ver cred fsa md w :
  arg_ok (store w) fsa → arg_ok (store w) cred →
  arg_ok (store w) la → arg_ok (store w) sa →
  let d_fs := caller_dict (store w) fsa in
  let d_cr := caller_dict (store w) cred in
  (∃ self, (__init__ E filepath la sa ver cred fsa md w).1 = Ok self)
  ↔ ∃ protocol path fs x',
      get_protocol_and_path E filepath ver = Ok (protocol, path)
      ∧ d_cr ##ₘ filesystem_args protocol d_fs
      ∧ fsspec_filesystem E protocol (d_cr ∪ filesystem_args protocol d_fs) (ext w)
        = (Ok fs, x')
      ∧ mapping_or_false (d_fs !! "open_args_load")
      ∧ mapping_or_false (d_fs !! "open_args_save").
Proof.
  intros Hfs Hcr Hla Hsa. cbv zeta.
  destruct (init_cases filepath la sa ver cred fsa md w Hfs Hcr Hla Hsa)
    as [(e0 & Hp & Hr & _)
       |(p0 & path & Hp & [(Hd & Hr & _)|(Hd & rf & Hc & _ & Hr)])].
  - split; [intros [? ?]; congruence|]. intros (? & ? & ? & ? & ? & _). congruence.
  - split; [intros [? ?]; congruence|].
    intros (p1 & path1 & ? & ? & Hp1 & Hd1 & _). rewrite Hp in Hp1.
    by simplify_eq.
  - split.
    + intros [self Hok]. destruct rf as [fs|e]; [|congruence].
      destruct Hr as [[_ Hr]|(H1 & H2 & _)]; [congruence|].
      eexists p0, path, fs, _. by split_and!.
    + intros (p1 & path1 & fs & x' & Hp1 & _ & Hc1 & H1 & H2).
      rewrite Hp in Hp1. simplify_eq.
      rewrite Hc1 in Hc. simplify_eq.
      destruct Hr as [[[?|?] _]|(_ & _ & Hr)]; [done..|]. eauto.
Qed.

(** What a successful construction did and returned. *)
Lemma init_ok_inv filepath la sa ver cred fsa md w self w' :
  arg_ok (store w) fsa → arg_ok (store w) cred →
  arg_ok (store w) la → arg_ok (store w) sa →
  __init__ E filepath la sa ver cred fsa md w = (Ok self, w') →
  ∃ path,
    let kw := caller_dict (store w) cred
              ∪ filesystem_args (_protocol self) (caller_dict (store w) fsa) in
    get_protocol_and_path E filepath ver = Ok (_protocol self, path)
    ∧ fsspec_filesystem E (_protocol self) kw (ext w) = (Ok (_fs self), ext w')
    ∧ since w w' = [EvFilesystem (_protocol self) kw (Ok (_fs self))]
    ∧ self = {| _protocol := _protocol self;
                _fs := _fs self;
                metadata := md;
                _filepath := PurePosixPath E path;
                _version := ver;
                _load_args := caller_dict (store w) la;
                _save_args := caller_dict (store w) sa;
                _fs_open_args_load :=
                  caller_open_args (store w) fsa "open_args_load"
                  ∪ {[ "mode" := VStr "rb" ]};
                _fs_open_args_save :=
                  caller_open_args (store w) fsa "open_args_save"
                  ∪ {[ "mode" := VStr "wb" ]} |}.
Proof.
  intros Hfs Hcr Hla Hsa Hinit.
  destruct (init_cases filepath la sa ver cred fsa md w Hfs Hcr Hla Hsa)
    as [(e0 & Hp & Hr & _)
       |(p0 & path & Hp & [(Hd & Hr & _)|(Hd & rf & Hc & Hl & Hr)])];
    rewrite Hinit in *; simpl in *; try congruence.
  destruct rf as [fs|e]; [|congruence].
  destruct Hr as [[_ Hr]|(_ & _ & Hr)]; [congruence|].
  injection Hr as ->. simpl. by exists path.
Qed.

(** X12.  A successful construction constructs the filesystem once, for
    the protocol derived from the filepath, and makes no other call; the
    adapter keeps that filesystem and protocol, the normalised path, and
    the version selector and metadata it was given. *)
Theorem init_constructs_filesystem_once filepath la sa ver cred fsa md w self w' :
  arg_ok (store w) fsa → arg_ok (store w) cred →
  arg_ok (store w) la → arg_ok (store w) sa →
  __init__ E filepath la sa ver cred fsa md w = (Ok self, w') →
  ∃ path,
    let kw := caller_dict (store w) cred
              ∪ filesystem_args (_protocol self) (caller_dict (store w) fsa) in
    get_protocol_and_path E filepath ver = Ok (_protocol self, path)
    ∧ since w w' = [EvFilesystem (_protocol self) kw (Ok (_fs self))]
    ∧ fsspec_filesystem E (_protocol self) kw (ext w) = (Ok (_fs self), ext w')
    ∧ _filepath self = PurePosixPath E path
    ∧ _version self = ver
    ∧ metadata self = md.
Proof.
  intros Hfs Hcr Hla Hsa Hinit.
  destruct (init_ok_inv _ _ _ _ _ _ _ _ _ _ Hfs Hcr Hla Hsa Hinit)
    as (path & Hp & Hc & Hl & Hself).
  exists path. split_and!; [done..| | |]; by rewrite Hself.
Qed.

(** X13.  The [load_args] and [save_args] given to the constructor are
    stored as given and handed unchanged to the decode routine by every
    [load] and to the encode routine, with the two halves of the data,
    by every [save]. *)
Theorem init_passes_codec_args_verbatim filepath la sa ver cred fsa md w self w' :
  arg_ok (store w) fsa → arg_ok (store w) cred →
  arg_ok (store w) la → arg_ok (store w) sa →
  __init__ E filepath la sa ver cred fsa md w = (Ok self, w') →
  _load_args self = caller_dict (store w) la
  ∧ _save_args self = caller_dict (store w) sa
  ∧ (∀ w1 s kw r, EvDecode s kw r ∈ since w1 (load self w1).2 →
       kw = caller_dict (store w) la)
  ∧ (∀ w1 data m v s kw r, EvEncode m v s kw r ∈ since w1 (save self data w1).2 →
       kw = caller_dict (store w) sa ∧ m = data.1 ∧ v = data.2).
Proof.
  intros Hfs Hcr Hla Hsa Hinit.
  destruct (init_ok_inv _ _ _ _ _ _ _ _ _ _ Hfs Hcr Hla Hsa Hinit)
    as (path & _ & _ & _ & Hself).
  assert (Hl : _load_args self = caller_dict (store w) la) by by rewrite Hself.
  assert (Hs : _save_args self = caller_dict (store w) sa) by by rewrite Hself.
  split_and!; [done..| |].
  - intros w1 s kw r Hin.
    destruct (load_calls self w1)
      as [(e & Hev & _)|(p & [(e & Hev & _)|(s0 & rd & rx & Hev & _)])];
      rewrite Hev in Hin; in_log Hin. done.
  - intros w1 data m v s kw r Hin.
    destruct (save_calls self data w1)
      as [(e0 & Hev & _)|(p & [(e0 & Hev & _)
            |(s0 & [(e0 & rx & Hev & _)|[(e0 & Hev & _)|(ri & Hev & _)]])])];
      rewrite Hev in Hin; in_log Hin; done.
Qed.

(** X14.  The constructor never looks at [metadata]: with another
    metadata it makes the same calls, leaves the same outside state and
    raises the same error or returns the same adapter, up to the
    metadata stored in it. *)
Theorem init_ignores_metadata filepath la sa ver cred fsa md md' w :
  arg_ok (store w) fsa → arg_ok (store w) cred →
  arg_ok (store w) la → arg_ok (store w) sa →
  let r := __init__ E filepath la sa ver cred fsa md w in
  let r' := __init__ E filepath la sa ver cred fsa md' w in
  since w r'.2 = since w r.2
  ∧ ext r'.2 = ext r.2
  ∧ match r.1, r'.1 with
    | Ok self, Ok self' =>
        metadata self = md
        ∧ self' = {| _protocol := _protocol self;
                     _fs := _fs self;
                     metadata := md';
                     _filepath := _filepath self;
                     _version := _version self;
                     _load_args := _load_args self;
                     _save_args := _save_args self;
                     _fs_open_args_load := _fs_open_args_load self;
                     _fs_open_args_save := _fs_open_args_save self |}
    | Raise e, Raise e' => e' = e
    | _, _ => False
    end.
Proof.
  intros Hfs Hcr Hla Hsa r r'.
  destruct (init_run_live filepath la sa ver cred fsa md w Hfs Hcr Hla Hsa)
    as (Hr & Hx & Hl).
  destruct (init_run_live filepath la sa ver cred fsa md' w Hfs Hcr Hla Hsa)
    as (Hr' & Hx' & Hl').
  fold r in Hr, Hx, Hl. fold r' in Hr', Hx', Hl'.
  rewrite Hr, Hx, Hl, Hr', Hx', Hl'. clear.
  unfold init_outcome.
  destruct (get_protocol_and_path E filepath ver) as [[protocol path]|e]; [|done].
  cbv zeta. destruct (kwargs2 _ _) as [kw|e]; [|done].
  destruct (fsspec_filesystem E _ kw (ext w)) as [[fs|e] x']; [|done].
  cbn [fst snd]. split_and!; [done..|].
  cbn [mbind result_bind].
  destruct (dict_display _ (VDict (caller_dict (store w) la))); [|done].
  destruct (dict_display _ (VDict (caller_dict (store w) sa))); [|done].
  destruct (dict_display _ (py_or (dict_get (caller_dict (store w) fsa) _ _) _));
    [|done].
  by destruct (dict_display _ _).
Qed.

(** X15.  The constructor reads the contents of its four mapping
    arguments and nothing else of them: given other objects with the
    same contents, where [None] counts as an empty mapping, it makes the
    same calls, leaves the same outside state and returns the same
    adapter or raises the same error. *)
Theorem init_depends_on_contents_only
    filepath la sa ver cred fsa la' sa' cred' fsa' md w :
  arg_ok (store w) fsa → arg_ok (store w) cred →
  arg_ok (store w) la → arg_ok (store w) sa →
  arg_ok (store w) fsa' → arg_ok (store w) cred' →
  arg_ok (store w) la' → arg_ok (store w) sa' →
  caller_dict (store w) fsa' = caller_dict (store w) fsa →
  caller_dict (store w) cred' = caller_dict (store w) cred →
  caller_dict (store w) la' = caller_dict (store w) la →
  caller_dict (store w) sa' = caller_dict (store w) sa →
  let r := __init__ E filepath la sa ver cred fsa md w in
  let r' := __init__ E filepath la' sa' ver cred' fsa' md w in
  r'.1 = r.1 ∧ ext r'.2 = ext r.2 ∧ since w r'.2 = since w r.2.
Proof.
  intros Hfs Hcr Hla Hsa Hfs' Hcr' Hla' Hsa' Efs Ecr Ela Esa r r'.
  destruct (init_run_live filepath la sa ver cred fsa md w Hfs Hcr Hla Hsa)
    as (Hr & Hx & Hl).
  destruct (init_run_live filepath la' sa' ver cred' fsa' md w Hfs' Hcr' Hla' Hsa')
    as (Hr' & Hx' & Hl').
  fold r in Hr, Hx, Hl. fold r' in Hr', Hx', Hl'.
  rewrite Efs, Ecr, Ela, Esa in Hr', Hx', Hl'.
  by rewrite Hr, Hx, Hl, Hr', Hx', Hl'.
Qed.

(** X16.  [_describe] of a constructed adapter reports the normalised
    path, the protocol derived from the filepath, the caller's
    [load_args] and [save_args] and the version selector, under five
    keys and no other: credentials, filesystem options and metadata are
    not reported. *)
Theorem describe_reports_five_entries filepath la sa ver cred fsa md w self w' :
  arg_ok (store w) fsa → arg_ok (store w) cred →
  arg_ok (store w) la → arg_ok (store w) sa →
  __init__ E filepath la sa ver cred fsa md w = (Ok self, w') →
  ∃ protocol path,
    get_protocol_and_path E filepath ver = Ok (protocol, path)
    ∧ _describe self !! "filepath" = Some (DPath (PurePosixPath E path))
    ∧ _describe self !! "protocol" = Some (DStr protocol)
    ∧ _describe self !! "load_args" = Some (DArgs (caller_dict (store w) la))
    ∧ _describe self !! "save_args" = Some (DArgs (caller_dict (store w) sa))
    ∧ _describe self !! "version" = Some (DVersion ver)
    ∧ ∀ k, is_Some (_describe self !! k)
           ↔ k ∈ ["filepath"; "protocol"; "load_args"; "save_args"; "version"].
Proof.
  intros Hfs Hcr Hla Hsa Hinit.
  destruct (init_ok_inv _ _ _ _ _ _ _ _ _ _ Hfs Hcr Hla Hsa Hinit)
    as (path & Hp & _ & _ & Hself).
  assert (Hf : _filepath self = PurePosixPath E path) by by rewrite Hself.
  assert (Hv : _version self = ver) by by rewrite Hself.
  assert (Hl : _load_args self = caller_dict (store w) la) by by rewrite Hself.
  assert (Hs : _save_args self = caller_dict (store w) sa) by by rewrite Hself.
  clear Hself. exists (_protocol self), path. split; [done|].
  unfold _describe. rewrite Hf, Hv, Hl, Hs.
  split_and!.
  - by rewrite lookup_insert_eq.
  - rewrite lookup_insert_ne by done. by rewrite lookup_insert_eq.
  - do 2 rewrite lookup_insert_ne by done. by rewrite lookup_insert_eq.
  - do 3 rewrite lookup_insert_ne by done. by rewrite lookup_insert_eq.
  - do 4 rewrite lookup_insert_ne by done. by rewrite lookup_insert_eq.
  - intros k. rewrite !elem_of_cons, elem_of_nil.
    rewrite !lookup_insert_is_Some, lookup_empty, is_Some_alt. split.
    + intros H. repeat (destruct H as [<-|[_ H]]; [auto 10|]). done.
    + intros H.
      repeat (destruct H as [->|H];
              [repeat first [left; reflexivity|right; split; [done|]]|]).
      done.
Qed.

(** X17.  Whatever its outcome, the constructor touches no file: the
    only call it can make is one construction of the filesystem, for the
    protocol derived from the filepath. *)
Theorem init_touches_no_file filepath la sa ver cred fsa md w :
  arg_ok (store w) fsa → arg_ok (store w) cred →
  arg_ok (store w) la → arg_ok (store w) sa →
  let evs := since w (__init__ E filepath la sa ver cred fsa md w).2 in
  (evs = []
   ∨ ∃ protocol path kw rf,
       get_protocol_and_path E filepath ver = Ok (protocol, path)
       ∧ evs = [EvFilesystem protocol kw rf])
  ∧ opened evs = [] ∧ invalidated evs = [] ∧ open_kwargs evs = [].
Proof.
  intros Hfs Hcr Hla Hsa.
  destruct (init_cases filepath la sa ver cred fsa md w Hfs Hcr Hla Hsa)
    as [(e0 & Hp & _ & _ & Hl)
       |(p0 & path & Hp & [(Hd & _ & _ & Hl)|(Hd & rf & _ & Hl & _)])];
    cbv zeta; rewrite Hl; simpl; split_and!; try done; eauto 10.
Qed.

(** The filesystems the calls of a log were made on, and the
    filesystem constructions in it. *)
Lemma method_calls_on_own_filesystem self (evs : list (event E)) :
  (∃ w, evs = since w (load self w).2)
  ∨ (∃ w data, evs = since w (save self data w).2)
  ∨ (∃ w, evs = since w (_exists self w).2)
  ∨ (∃ w, evs = since w (_release self w).2) →
  ∀ ev, ev ∈ evs →
    match ev with
    | EvFilesystem _ _ _ => False
    | EvOpen fs _ _ _ | EvExists fs _ _ | EvInvalidate fs _ _ => fs = _fs self
    | _ => True
    end.
Proof.
  intros [(w & ->)|[(w & data & ->)|[(w & ->)|(w & ->)]]] ev Hin.
  - destruct (load_calls self w)
      as [(e & Hev & _)|(p & [(e & Hev & _)|(s & rd & rx & Hev & _)])];
      rewrite Hev in Hin; by in_log Hin.
  - destruct (save_calls self data w)
      as [(e0 & Hev & _)|(p & [(e0 & Hev & _)
            |(s0 & [(e0 & rx & Hev & _)|[(e0 & Hev & _)|(ri & Hev & _)]])])];
      rewrite Hev in Hin; by in_log Hin.
  - destruct (exists_calls self w) as [(e & Hev & _)|(p & r & Hev & _)];
      rewrite Hev in Hin; by in_log Hin.
  - destruct (release_calls self w) as [(e & Hev & _)|(r & Hev & _)];
      rewrite Hev in Hin; by in_log Hin.
Qed.

(** X18.  [load], [save], [_exists] and [_release] never construct a
    filesystem: every [open], [exists] and [invalidate_cache] they make
    is made on the filesystem stored in the adapter. *)
Theorem methods_reuse_the_filesystem self data w :
  let logs := [since w (load self w).2; since w (save self data w).2;
               since w (_exists self w).2; since w (_release self w).2] in
  ∀ evs ev, evs ∈ logs → ev ∈ evs →
    match ev with
    | EvFilesystem _ _ _ => False
    | EvOpen fs _ _ _ | EvExists fs _ _ | EvInvalidate fs _ _ => fs = _fs self
    | _ => True
    end.
Proof.
  intros logs evs ev Hevs. apply method_calls_on_own_filesystem.
  subst logs. rewrite !elem_of_cons, elem_of_nil in Hevs.
  destruct Hevs as [->|[->|[->|[->|[]]]]]; eauto 10.
Qed.

End Properties.

(** ** The properties on the reference instance *)

(** Closed equations and memberships are settled by running the
    definitions. *)
Ltac run := match goal with |- ?a = ?b => exact (@eq_refl _ b <: a = b) end.

Ltac logged i := apply (list_elem_of_lookup_2 _ i); run.

(** On an empty disk [plain] is what the constructor returns for
    [data/x.svm] and no option, and its opens carry the default
    modes. *)
Lemma default_open_modes_witness :
  open_kwargs (since Mem.empty_world (load Mem.plain Mem.empty_world).2)
    = [{[ "mode" := VStr "rb" ]}]
  ∧ open_kwargs (since Mem.empty_world (save Mem.plain Mem.sample Mem.empty_world).2)
    = [{[ "mode" := VStr "wb" ]}].
Proof.
  destruct (default_open_modes (E := Mem.externals) "data/x.svm" None None None None None
              Mem.empty_world Mem.plain
              (__init__ Mem.externals "data/x.svm" None None None None None None
                 Mem.empty_world).2)
    as (_ & _ & Hl & Hs).
  - exact I.
  - run.
  - split.
    + apply (Hl Mem.empty_world "data/x.svm"). logged 0.
    + apply (Hs Mem.empty_world Mem.sample "data/x.svm"). logged 0.
Defined.

(** The caller's sub-map [{mode: r, block_size: 1024}] lands on top of
    the default read options and its mode is the stored one. *)
Lemma open_args_defaults_then_caller_witness :
  _fs_open_args_load Mem.tuned
    = caller_open_args (store Mem.caller_world) (Some 1%positive) "open_args_load"
      ∪ {[ "mode" := VStr "rb" ]}
  ∧ _fs_open_args_load Mem.tuned !! "mode" = Some (VStr "r").
Proof.
  destruct (open_args_defaults_then_caller (E := Mem.externals) "s3://bucket/x.svm"
              None None None (Some 2%positive) (Some 1%positive) None
              Mem.caller_world Mem.tuned
              (__init__ Mem.externals "s3://bucket/x.svm" None None None
                 (Some 2%positive) (Some 1%positive) None Mem.caller_world).2)
    as (Hl & _ & Hk & _).
  - exists Mem.caller_fs_args. run.
  - exists Mem.caller_credentials. run.
  - run.
  - split; [exact Hl|]. apply Hk. run.
Defined.

(** A versioned save writes under the version directory and invalidates
    the logical path: the two differ. *)
Lemma save_invalidates_written_path_counterexample :
  ¬ save_invalidates_written_path Mem.versioned Mem.sample Mem.empty_world.
Proof.
  unfold save_invalidates_written_path. intros H.
  assert (Hok : (save Mem.versioned Mem.sample Mem.empty_world).1 = Ok ()) by run.
  specialize (H Hok).
  assert (Hinv : invalidated
                   (since Mem.empty_world
                      (save Mem.versioned Mem.sample Mem.empty_world).2)
                 = ["data/x.svm"]) by run.
  assert (Hopen : opened
                    (since Mem.empty_world
                       (save Mem.versioned Mem.sample Mem.empty_world).2)
                  = ["data/x.svm/2026-01-01T00.00.00.000Z/x.svm"]) by run.
  rewrite Hinv, Hopen in H. discriminate H.
Qed.

(** An unversioned save invalidates the path it wrote. *)
Lemma save_invalidates_logical_path_witness :
  invalidated (since Mem.empty_world (save Mem.plain Mem.sample Mem.empty_world).2)
    = [get_filepath_str Mem.externals (_filepath Mem.plain) (_protocol Mem.plain)].
Proof.
  destruct (save_invalidates_logical_path (E := Mem.externals)
              Mem.plain Mem.sample Mem.empty_world)
    as (p & s & _ & Hinv & _).
  - run.
  - exact Hinv.
Defined.

(** On an empty disk a versioned adapter finds no version and [_exists]
    answers [False] without asking the filesystem; an unversioned one
    resolves to its logical path and returns the filesystem's answer. *)
Lemma exists_false_when_unresolved_witness :
  ((_exists Mem.versioned Mem.empty_world).1 = Ok false
   ∧ since Mem.empty_world (_exists Mem.versioned Mem.empty_world).2
     = [EvLoadPath (Raise (VersionNotFoundError "Did not find any versions"))])
  ∧ (_exists Mem.plain Mem.empty_world).1
    = (fs_exists Mem.externals (_fs Mem.plain)
         (get_filepath_str Mem.externals "data/x.svm" (_protocol Mem.plain))
         Mem.empty_state).1.
Proof.
  destruct (exists_false_when_unresolved (E := Mem.externals)
              Mem.versioned Mem.empty_world) as [Hraise _].
  destruct (exists_false_when_unresolved (E := Mem.externals)
              Mem.plain Mem.empty_world) as [_ Hask].
  split.
  - apply (Hraise (VersionNotFoundError "Did not find any versions") Mem.empty_state).
    + run.
    + reflexivity.
  - apply (Hask "data/x.svm" Mem.empty_state). run.
Defined.

(** Decoding a file that is not in svmlight format raises; the stream
    is exited right after and [load] raises. *)
Lemma streams_closed_on_every_exit_witness :
  ∃ (pre : list (event Mem.externals)) rx e',
    since Mem.garbage_world (load Mem.plain Mem.garbage_world).2
    = pre ++ [EvDecode (Mem.mkFile "data/x.svm" "rb" : stream Mem.externals) ∅
                (Raise (OtherError "ValueError" "malformed svmlight file"));
              EvExit (Mem.mkFile "data/x.svm" "rb" : stream Mem.externals) rx]
    ∧ (load Mem.plain Mem.garbage_world).1 = Raise e'.
Proof.
  destruct (streams_closed_on_every_exit (E := Mem.externals)
              Mem.plain Mem.sample Mem.garbage_world) as (_ & _ & Hdec & _).
  apply Hdec. logged 2.
Defined.

(** For the local protocol and [fs_args] without [auto_mkdir], the
    filesystem is constructed with [auto_mkdir = True] next to the
    caller's [token] and [project]. *)
Lemma auto_mkdir_defaults_to_true_for_file_witness :
  (<["token" := VNone]>
     (<["auto_mkdir" := VBool true]> {[ "project" := VStr "my-project" ]})
   : gmap string pyval) !! "auto_mkdir"
  = Some (default (VBool true)
            (caller_dict (store Mem.caller_world) (Some 1%positive) !! "auto_mkdir")).
Proof.
  destruct (auto_mkdir_defaults_to_true_for_file (E := Mem.externals) "data/x.svm"
              None None None (Some 2%positive) (Some 1%positive) None
              Mem.caller_world "file"
              (<["token" := VNone]>
                 (<["auto_mkdir" := VBool true]> {[ "project" := VStr "my-project" ]}))
              (Ok ("file" : filesystem Mem.externals))) as (_ & Hfile & _).
  - exists Mem.caller_fs_args. run.
  - exists Mem.caller_credentials. run.
  - logged 0.
  - apply Hfile. reflexivity.
Defined.

(** With no option at all the local filesystem is still constructed with
    [auto_mkdir = True], which is neither a credential nor an entry of
    [fs_args]. *)
Lemma constructor_gets_exactly_remaining_counterexample :
  ¬ constructor_gets_exactly_remaining Mem.externals "data/x.svm"
      None None None None None None Mem.empty_world.
Proof.
  unfold constructor_gets_exactly_remaining. intros H.
  specialize (H "file" {[ "auto_mkdir" := VBool true ]}
                (Ok ("file" : filesystem Mem.externals))).
  assert (Hin : EvFilesystem (E := Mem.externals) "file" {[ "auto_mkdir" := VBool true ]}
                  (Ok ("file" : filesystem Mem.externals))
                ∈ since Mem.empty_world
                    (__init__ Mem.externals "data/x.svm" None None None None None None
                       Mem.empty_world).2) by logged 0.
  specialize (H Hin).
  assert (Hl : ({[ "auto_mkdir" := VBool true ]} : gmap string pyval) !! "auto_mkdir"
               = Some (VBool true)) by run.
  rewrite H in Hl. revert Hl. simpl caller_dict.
  rewrite !delete_empty, (left_id_L ∅ (∪)), lookup_empty. discriminate.
Qed.

(** The caller's [project] reaches the object-store filesystem, the
    reserved [open_args_load] does not. *)
Lemma filesystem_gets_remaining_fs_args_witness :
  (<["token" := VNone]> {[ "project" := VStr "my-project" ]} : gmap string pyval)
    !! "open_args_load"
  = caller_dict (store Mem.caller_world) (Some 2%positive) !! "open_args_load"
  ∧ (<["token" := VNone]> {[ "project" := VStr "my-project" ]} : gmap string pyval)
      !! "project" = Some (VStr "my-project").
Proof.
  destruct (filesystem_gets_remaining_fs_args (E := Mem.externals) "s3://bucket/x.svm"
              None None None (Some 2%positive) (Some 1%positive) None
              Mem.caller_world "s3"
              (<["token" := VNone]> {[ "project" := VStr "my-project" ]})
              (Ok ("s3" : filesystem Mem.externals))) as (_ & Hl & _ & Hrest & _).
  - exists Mem.caller_fs_args. run.
  - exists Mem.caller_credentials. run.
  - logged 0.
  - split; [exact Hl|]. apply Hrest; [done|done|run].
Defined.

(** The reference filesystem answers [exists] and resolves load paths
    without changing state, so asking a versioned adapter twice gives
    one answer. *)
Lemma exists_twice_same_answer_witness :
  (_exists Mem.versioned (_exists Mem.versioned Mem.empty_world).2).1
  = (_exists Mem.versioned Mem.empty_world).1.
Proof.
  destruct (exists_twice_same_answer (E := Mem.externals) eq
              Mem.versioned Mem.empty_world) as (Hsame & _).
  - intros x y z -> ->. reflexivity.
  - intros x. simpl. unfold Mem.get_load_path. simpl.
    destruct (List.find _ _); reflexivity.
  - intros x y ->. reflexivity.
  - intros p x. reflexivity.
  - intros p x y ->. reflexivity.
  - exact Hsame.
Defined.

(** Construction from the caller's mappings leaves both as they were:
    [fs_args] still has its [open_args_load]. *)
Lemma init_leaves_caller_mappings_unchanged_witness :
  store (__init__ Mem.externals "data/x.svm" None None None (Some 2%positive)
           (Some 1%positive) None Mem.caller_world).2 !! 1%positive
  = store Mem.caller_world !! 1%positive
  ∧ store (__init__ Mem.externals "data/x.svm" None None None (Some 2%positive)
             (Some 1%positive) None Mem.caller_world).2 !! 2%positive
    = store Mem.caller_world !! 2%positive.
Proof.
  destruct (init_leaves_caller_mappings_unchanged (E := Mem.externals) "data/x.svm"
              None None None (Some 2%positive) (Some 1%positive) None Mem.caller_world)
    as (_ & Hfs & Hcr & _).
  - exists Mem.caller_fs_args. run.
  - exists Mem.caller_credentials. run.
  - split; [apply Hfs|apply Hcr]; reflexivity.
Defined.

(** One row and no label: the codec raises and, the stream closing
    well, [save] raises the codec's error and invalidates nothing. *)
Lemma encode_failure_skips_invalidation_witness :
  invalidated (since Mem.empty_world (save Mem.plain Mem.ragged Mem.empty_world).2) = []
  ∧ ∃ (pre : list (event Mem.externals)) rx,
      since Mem.empty_world (save Mem.plain Mem.ragged Mem.empty_world).2
      = pre ++ [EvEncode (E := Mem.externals) [[1%Z]] []
                  (Mem.mkFile "data/x.svm" "wb") ∅
                  (Raise (OtherError "ValueError" "X and y have different lengths"));
                EvExit (Mem.mkFile "data/x.svm" "wb" : stream Mem.externals) rx]
      ∧ (save Mem.plain Mem.ragged Mem.empty_world).1
        = Raise (match rx with
                 | Ok _ => OtherError "ValueError" "X and y have different lengths"
                 | Raise e' => e'
                 end).
Proof.
  destruct (encode_failure_skips_invalidation (E := Mem.externals)
              Mem.plain Mem.ragged Mem.empty_world) as (Hraise & _).
  apply (Hraise [[1%Z]] [] (Mem.mkFile "data/x.svm" "wb" : stream Mem.externals) ∅
           (OtherError "ValueError" "X and y have different lengths")).
  logged 2.
Defined.

(** One row and no label on a filesystem whose upload at close fails:
    the codec raises, the close raises too, and the caller gets the
    error of the close, not the codec's. *)
Lemma save_propagates_encode_error_counterexample :
  ¬ save_propagates_encode_error Mem.plain_faulty Mem.ragged Mem.faulty_world.
Proof.
  unfold save_propagates_encode_error. intros H.
  destruct (H [[1%Z]] [] (Mem.mkFile "data/x.svm" "wb" : stream Mem.faulty) ∅
              (OtherError "ValueError" "X and y have different lengths"))
    as [Hsame _]; [logged 2|].
  assert (Hreal : (save Mem.plain_faulty Mem.ragged Mem.faulty_world).1
                  = Raise (OtherError "OSError" "upload failed")) by run.
  rewrite Hreal in Hsame. discriminate Hsame.
Qed.

(** ** The further properties on the reference instance *)

(** Releasing [plain] invalidates [data/x.svm]; when the base release
    fails nothing is invalidated. *)
Lemma release_invalidates_after_base_release_witness :
  invalidated (since Mem.empty_world (_release Mem.plain Mem.empty_world).2)
    = [get_filepath_str Mem.externals (_filepath Mem.plain) (_protocol Mem.plain)]
  ∧ since Mem.faulty_world (_release Mem.plain_faulty Mem.faulty_world).2
    = [EvRelease (Raise (OtherError "RuntimeError" "release failed"))].
Proof.
  destruct (release_invalidates_after_base_release (E := Mem.externals)
              Mem.plain Mem.empty_world) as [_ Hok].
  destruct (release_invalidates_after_base_release (E := Mem.faulty)
              Mem.plain_faulty Mem.faulty_world) as [Hraise _].
  split.
  - apply (Hok Mem.empty_state). reflexivity.
  - apply (Hraise (OtherError "RuntimeError" "release failed") Mem.empty_state).
    reflexivity.
Defined.

(** With no version on disk, [load] raises the error that [_exists]
    turns into [False]. *)
Lemma load_raises_what_exists_swallows_witness :
  (load Mem.versioned Mem.empty_world).1
    = Raise (VersionNotFoundError "Did not find any versions")
  ∧ since Mem.empty_world (load Mem.versioned Mem.empty_world).2
    = [EvLoadPath (Raise (VersionNotFoundError "Did not find any versions"))]
  ∧ (is_DatasetError (VersionNotFoundError "Did not find any versions") = true →
     (_exists Mem.versioned Mem.empty_world).1 = Ok false).
Proof.
  apply (load_raises_what_exists_swallows (E := Mem.externals)
           Mem.versioned Mem.empty_world
           (VersionNotFoundError "Did not find any versions") Mem.empty_state).
  run.
Defined.

(** Loading the stored sample returns it after four calls. *)
Lemma load_returns_decoded_witness :
  ∃ p s,
    since Mem.saved_world (load Mem.plain Mem.saved_world).2
    = [EvLoadPath (Ok p);
       EvOpen (_fs Mem.plain)
         (get_filepath_str Mem.externals p (_protocol Mem.plain))
         (_fs_open_args_load Mem.plain) (Ok s);
       EvDecode s (_load_args Mem.plain) (Ok (Mem.sample : matrix Mem.externals * labels Mem.externals));
       EvExit s (Ok ())].
Proof.
  apply (load_returns_decoded (E := Mem.externals) Mem.plain Mem.saved_world Mem.sample).
  run.
Defined.

(** A permission error while listing versions is not a [DatasetError]:
    [_exists] raises it. *)
Lemma exists_raises_other_errors_witness :
  (_exists Mem.versioned_faulty Mem.faulty_world).1
    = Raise (OtherError "PermissionError" "cannot list versions")
  ∧ since Mem.faulty_world (_exists Mem.versioned_faulty Mem.faulty_world).2
    = [EvLoadPath (Raise (OtherError "PermissionError" "cannot list versions"))].
Proof.
  destruct (exists_raises_other_errors (E := Mem.faulty)
              Mem.versioned_faulty Mem.faulty_world) as [Hraise _].
  apply (Hraise (OtherError "PermissionError" "cannot list versions") Mem.empty_state).
  - reflexivity.
  - reflexivity.
Defined.

(** Saving a version that exists already stops at the path
    resolution. *)
Lemma save_fails_early_without_stream_witness :
  (save Mem.versioned Mem.sample Mem.taken_world).1
    = Raise (DatasetError "Save path must not exist if versioning is enabled")
  ∧ since Mem.taken_world (save Mem.versioned Mem.sample Mem.taken_world).2
    = [EvSavePath
         (Raise (DatasetError "Save path must not exist if versioning is enabled"))].
Proof.
  destruct (save_fails_early_without_stream (E := Mem.externals)
              Mem.versioned Mem.sample Mem.taken_world) as [Hraise _].
  apply (Hraise (DatasetError "Save path must not exist if versioning is enabled")
           (ext Mem.taken_world)).
  run.
Defined.

(** When the upload at close fails the save raises that error and the
    cache is left as it was. *)
Lemma save_close_failure_skips_invalidation_witness :
  (save Mem.plain_faulty Mem.sample Mem.faulty_world).1
    = Raise (OtherError "OSError" "upload failed")
  ∧ invalidated (since Mem.faulty_world
                   (save Mem.plain_faulty Mem.sample Mem.faulty_world).2) = []
  ∧ ∃ r, EvEncode (Mem.sample : matrix Mem.faulty * labels Mem.faulty).1
           (Mem.sample : matrix Mem.faulty * labels Mem.faulty).2
           (Mem.mkFile "data/x.svm" "wb" : stream Mem.faulty)
           (_save_args Mem.plain_faulty) r
         ∈ since Mem.faulty_world
             (save Mem.plain_faulty Mem.sample Mem.faulty_world).2.
Proof.
  apply (save_close_failure_skips_invalidation (E := Mem.faulty)
           Mem.plain_faulty Mem.sample Mem.faulty_world).
  logged 3.
Defined.

(** Versioning over HTTP is refused before any filesystem is
    constructed. *)
Lemma init_raises_collaborator_errors_witness :
  (__init__ Mem.externals "https://host/x.svm" None None
     (Some (mkVersion None None)) None None None Mem.empty_world).1
    = Raise (DatasetError "Versioning is not supported for HTTP protocols")
  ∧ since Mem.empty_world
      (__init__ Mem.externals "https://host/x.svm" None None
         (Some (mkVersion None None)) None None None Mem.empty_world).2 = []
  ∧ ext (__init__ Mem.externals "https://host/x.svm" None None
           (Some (mkVersion None None)) None None None Mem.empty_world).2
    = ext Mem.empty_world.
Proof.
  destruct (init_raises_collaborator_errors (E := Mem.externals) "https://host/x.svm"
              None None (Some (mkVersion None None)) None None None Mem.empty_world)
    as [Hraise _]; [exact I..|].
  apply Hraise. run.
Defined.

(** [auto_mkdir] among the credentials of a local dataset is a repeated
    keyword. *)
Lemma init_rejects_repeated_keyword_witness :
  (__init__ Mem.externals "data/x.svm" None None None (Some 2%positive) None None
     Mem.clash_world).1
    = Raise (TypeError "got multiple values for keyword argument")
  ∧ since Mem.clash_world
      (__init__ Mem.externals "data/x.svm" None None None (Some 2%positive) None None
         Mem.clash_world).2 = []
  ∧ ext (__init__ Mem.externals "data/x.svm" None None None (Some 2%positive) None
           None Mem.clash_world).2
    = ext Mem.clash_world.
Proof.
  apply (init_rejects_repeated_keyword (E := Mem.externals) "data/x.svm"
           None None None (Some 2%positive) None None Mem.clash_world
           "file" "data/x.svm").
  - exact I.
  - exists {[ "auto_mkdir" := VBool false ]}. run.
  - exact I.
  - exact I.
  - run.
  - right. split; [reflexivity|]. exists (VBool false). run.
Defined.

(** A string under [open_args_load] is refused once the filesystem
    exists. *)
Lemma init_rejects_non_mapping_open_args_witness :
  (__init__ Mem.externals "data/x.svm" None None None None (Some 1%positive) None
     Mem.bad_open_args_world).1
    = Raise (TypeError "object is not a mapping").
Proof.
  destruct (init_rejects_non_mapping_open_args (E := Mem.externals) "data/x.svm"
              None None None None (Some 1%positive) None Mem.bad_open_args_world)
    as [_ Hlate].
  - exists {[ "open_args_load" := VStr "rb" ]}. run.
  - exact I.
  - exact I.
  - exact I.
  - left.
    assert (Hv : caller_dict (store Mem.bad_open_args_world) (Some 1%positive)
                   !! "open_args_load" = Some (VStr "rb")) by run.
    rewrite Hv. intros [Hf|[d Hd]]; discriminate.
  - apply (Hlate "file" {[ "auto_mkdir" := VBool true ]}
             ("file" : filesystem Mem.externals)).
    logged 0.
Defined.

(** A local path and no option at all meet the four conditions. *)
Lemma init_succeeds_iff_witness :
  ∃ self, (__init__ Mem.externals "data/x.svm" None None None None None None
             Mem.empty_world).1 = Ok self.
Proof.
  apply (init_succeeds_iff (E := Mem.externals) "data/x.svm" None None None None None
           None Mem.empty_world); [exact I..|].
  exists "file", "data/x.svm", ("file" : filesystem Mem.externals), Mem.empty_state.
  split_and!.
  - run.
  - apply map_disjoint_empty_l.
  - run.
  - simpl. rewrite lookup_empty. exact I.
  - simpl. rewrite lookup_empty. exact I.
Defined.

(** Constructing [plain] makes one call: the local filesystem with
    [auto_mkdir]. *)
Lemma init_constructs_filesystem_once_witness :
  ∃ path,
    let kw := caller_dict (store Mem.empty_world) None
              ∪ filesystem_args (_protocol Mem.plain)
                  (caller_dict (store Mem.empty_world) None) in
    get_protocol_and_path Mem.externals "data/x.svm" None
      = Ok (_protocol Mem.plain, path)
    ∧ since Mem.empty_world
        (__init__ Mem.externals "data/x.svm" None None None None None None
           Mem.empty_world).2
      = [EvFilesystem (_protocol Mem.plain) kw (Ok (_fs Mem.plain))]
    ∧ fsspec_filesystem Mem.externals (_protocol Mem.plain) kw (ext Mem.empty_world)
      = (Ok (_fs Mem.plain),
         ext (__init__ Mem.externals "data/x.svm" None None None None None None
                Mem.empty_world).2)
    ∧ _filepath Mem.plain = PurePosixPath Mem.externals path
    ∧ _version Mem.plain = None
    ∧ metadata Mem.plain = None.
Proof.
  apply (init_constructs_filesystem_once (E := Mem.externals) "data/x.svm"
           None None None None None None Mem.empty_world Mem.plain);
    [exact I..|].
  run.
Defined.

(** The caller's [zero_based] options are the stored codec options. *)
Lemma init_passes_codec_args_verbatim_witness :
  _load_args Mem.one_based
    = caller_dict (store Mem.codec_args_world) (Some 3%positive)
  ∧ _save_args Mem.one_based
    = caller_dict (store Mem.codec_args_world) (Some 4%positive).
Proof.
  destruct (init_passes_codec_args_verbatim (E := Mem.externals) "data/x.svm"
              (Some 3%positive) (Some 4%positive) None None (Some 1%positive)
              (Some 4%positive) Mem.codec_args_world Mem.one_based
              (__init__ Mem.externals "data/x.svm" (Some 3%positive) (Some 4%positive)
                 None None (Some 1%positive) (Some 4%positive)
                 Mem.codec_args_world).2)
    as (Hl & Hs & _).
  - exists ∅. run.
  - exact I.
  - exists {[ "zero_based" := VBool false ]}. run.
  - exists {[ "zero_based" := VBool false ]}. run.
  - run.
  - split; [exact Hl|exact Hs].
Defined.

(** With or without metadata the same calls are made. *)
Lemma init_ignores_metadata_witness :
  since Mem.codec_args_world
    (__init__ Mem.externals "data/x.svm" (Some 3%positive) (Some 4%positive)
       None None (Some 1%positive) None Mem.codec_args_world).2
  = since Mem.codec_args_world
      (__init__ Mem.externals "data/x.svm" (Some 3%positive) (Some 4%positive)
         None None (Some 1%positive) (Some 4%positive) Mem.codec_args_world).2.
Proof.
  destruct (init_ignores_metadata (E := Mem.externals) "data/x.svm"
              (Some 3%positive) (Some 4%positive) None None (Some 1%positive)
              (Some 4%positive) None Mem.codec_args_world)
    as (Hlog & _).
  - exists ∅. run.
  - exact I.
  - exists {[ "zero_based" := VBool false ]}. run.
  - exists {[ "zero_based" := VBool false ]}. run.
  - exact Hlog.
Defined.

(** An empty [fs_args] mapping and no [fs_args] give the same result. *)
Lemma init_depends_on_contents_only_witness :
  (__init__ Mem.externals "data/x.svm" (Some 3%positive) (Some 4%positive)
     None None None None Mem.codec_args_world).1
  = (__init__ Mem.externals "data/x.svm" (Some 3%positive) (Some 4%positive)
       None None (Some 1%positive) None Mem.codec_args_world).1.
Proof.
  destruct (init_depends_on_contents_only (E := Mem.externals) "data/x.svm"
              (Some 3%positive) (Some 4%positive) None None (Some 1%positive)
              (Some 3%positive) (Some 4%positive) None None None
              Mem.codec_args_world)
    as (Hres & _).
  - exists ∅. run.
  - exact I.
  - exists {[ "zero_based" := VBool false ]}. run.
  - exists {[ "zero_based" := VBool false ]}. run.
  - exact I.
  - exact I.
  - exists {[ "zero_based" := VBool false ]}. run.
  - exists {[ "zero_based" := VBool false ]}. run.
  - run.
  - reflexivity.
  - reflexivity.
  - reflexivity.
  - exact Hres.
Defined.

(** What [_describe] reports for the adapter with codec options. *)
Lemma describe_reports_five_entries_witness :
  ∃ protocol path,
    get_protocol_and_path Mem.externals "data/x.svm" None = Ok (protocol, path)
    ∧ _describe Mem.one_based !! "filepath"
      = Some (DPath (PurePosixPath Mem.externals path))
    ∧ _describe Mem.one_based !! "protocol" = Some (DStr protocol)
    ∧ _describe Mem.one_based !! "load_args"
      = Some (DArgs (caller_dict (store Mem.codec_args_world) (Some 3%positive)))
    ∧ _describe Mem.one_based !! "save_args"
      = Some (DArgs (caller_dict (store Mem.codec_args_world) (Some 4%positive)))
    ∧ _describe Mem.one_based !! "version" = Some (DVersion None)
    ∧ ∀ k, is_Some (_describe Mem.one_based !! k)
           ↔ k ∈ ["filepath"; "protocol"; "load_args"; "save_args"; "version"].
Proof.
  apply (describe_reports_five_entries (E := Mem.externals) "data/x.svm"
           (Some 3%positive) (Some 4%positive) None None (Some 1%positive)
           (Some 4%positive) Mem.codec_args_world Mem.one_based
           (__init__ Mem.externals "data/x.svm" (Some 3%positive) (Some 4%positive)
              None None (Some 1%positive) (Some 4%positive)
              Mem.codec_args_world).2).
  - exists ∅. run.
  - exact I.
  - exists {[ "zero_based" := VBool false ]}. run.
  - exists {[ "zero_based" := VBool false ]}. run.
  - run.
Defined.

(** Constructing [plain] opens and invalidates nothing. *)
Lemma init_touches_no_file_witness :
  opened (since Mem.empty_world
            (__init__ Mem.externals "data/x.svm" None None None None None None
               Mem.empty_world).2) = []
  ∧ invalidated (since Mem.empty_world
                   (__init__ Mem.externals "data/x.svm" None None None None None None
                      Mem.empty_world).2) = [].
Proof.
  destruct (init_touches_no_file (E := Mem.externals) "data/x.svm"
              None None None None None None Mem.empty_world)
    as (_ & Ho & Hi & _); [exact I..|].
  split; [exact Ho|exact Hi].
Defined.

(** The invalidation of a save is made on the adapter's filesystem. *)
Lemma methods_reuse_the_filesystem_witness :
  ("file" : filesystem Mem.externals) = _fs Mem.plain.
Proof.
  apply (methods_reuse_the_filesystem (E := Mem.externals)
           Mem.plain Mem.sample Mem.empty_world
           (since Mem.empty_world (save Mem.plain Mem.sample Mem.empty_world).2)
           (EvInvalidate ("file" : filesystem Mem.externals) "data/x.svm" (Ok ()))).
  - right. left.
  - logged 4.
Defined.
